(** * Agri-aid: the response parser of [ImageAnalysisService]

    A shallow embedding of [backend/app/services/image_analysis_service.py].
    The service sends an image to a multimodal model, extracts a JSON object
    from the free text that comes back, rejects non-agricultural or
    low-confidence answers, and reconciles the reported issue with two small
    tables of Philippine pests and diseases.

    Conventions of the embedding:
    - a Python [str] is a [string], one code per character; codes 0..127
      are ASCII, the other codes stand for characters outside ASCII;
    - [str.upper] and [str.lower] are builtins over the Unicode tables:
      they are parameters, the class [PyStr.Unicode], specified on the ASCII
      characters and left open on the others (which may map to ASCII
      letters, as U+017F does to S, or to several characters);
    - values decoded by [json.loads] are of type [pyval];
    - an exception is a value of [exn], raised through the monad [exc];
    - a [dict] is an association list in insertion order, read with [assoc];
    - [json.loads] and [str()] on non-string values are library code: they
      are parameters of the development;
    - an exception is a subclass of [Exception] ([exn]); what only derives
      from [BaseException] is a [base_exception], which the model call may
      raise and which [except Exception] does not catch. *)

From Stdlib Require Import Bool List ZArith Ascii String Lia PrimFloat DecimalString.
Import ListNotations.
Set Warnings "-register-all".
Open Scope string_scope.

(* ===================================================================== *)
(** * Python strings *)
(* ===================================================================== *)

Module PyStr.

Definition is_lower (c : ascii) : bool :=
  let n := nat_of_ascii c in (97 <=? n)%nat && (n <=? 122)%nat.

Definition is_upper (c : ascii) : bool :=
  let n := nat_of_ascii c in (65 <=? n)%nat && (n <=? 90)%nat.

Definition upper_char (c : ascii) : ascii :=
  if is_lower c then ascii_of_nat (nat_of_ascii c - 32) else c.

Definition lower_char (c : ascii) : ascii :=
  if is_upper c then ascii_of_nat (nat_of_ascii c + 32) else c.

Fixpoint map_chars (f : ascii -> ascii) (s : string) : string :=
  match s with
  | EmptyString => EmptyString
  | String c t => String (f c) (map_chars f t)
  end.

(** The case maps of the ASCII letters, every other character kept. *)
Definition ascii_upper : string -> string := map_chars upper_char.
Definition ascii_lower : string -> string := map_chars lower_char.

(** [s.replace(old, new)] for one-character [old] and [new]. *)
Definition replace_char (old new : ascii) : string -> string :=
  map_chars (fun c => if Ascii.eqb c old then new else c).

(** [s.startswith(p)]. *)
Fixpoint starts_with (p s : string) : bool :=
  match p, s with
  | EmptyString, _ => true
  | String _ _, EmptyString => false
  | String a p', String b s' => Ascii.eqb a b && starts_with p' s'
  end.

(** [needle in hay]. *)
Fixpoint str_in (needle hay : string) : bool :=
  starts_with needle hay
  || match hay with
     | EmptyString => false
     | String _ t => str_in needle t
     end.

(** [c in s] for a single character, as a proposition. *)
Fixpoint occurs (c : ascii) (s : string) : Prop :=
  match s with
  | EmptyString => False
  | String a t => a = c \/ occurs c t
  end.

(** The one-character string. *)
Definition chr (c : ascii) : string := String c EmptyString.

(** The ASCII characters, and the strings made of them. *)
Definition is_ascii (c : ascii) : bool := (nat_of_ascii c <? 128)%nat.

Fixpoint all_ascii (s : string) : bool :=
  match s with
  | EmptyString => true
  | String c t => is_ascii c && all_ascii t
  end.

(** [case_mapped on_ascii on_other s t]: [t] is [s] with each ASCII
    character replaced by its image under [on_ascii], and each other
    character by some string that [on_other] allows. *)
Inductive case_mapped (on_ascii : ascii -> ascii) (on_other : string -> Prop)
    : string -> string -> Prop :=
| mapped_nil : case_mapped on_ascii on_other EmptyString EmptyString
| mapped_ascii (c : ascii) (s t : string) :
    is_ascii c = true ->
    case_mapped on_ascii on_other s t ->
    case_mapped on_ascii on_other (String c s) (String (on_ascii c) t)
| mapped_other (c : ascii) (e s t : string) :
    is_ascii c = false ->
    on_other e ->
    case_mapped on_ascii on_other s t ->
    case_mapped on_ascii on_other (String c s) (e ++ t).

(** The strings made of ASCII lower-case letters other than [i] and [k]. *)
Fixpoint plain (s : string) : bool :=
  match s with
  | EmptyString => true
  | String x t =>
      is_lower x && negb (Ascii.eqb x "i") && negb (Ascii.eqb x "k") && plain t
  end.

(** What [lower] makes of a character outside ASCII: at least one
    character, and no ASCII lower-case letter but [i] (from U+0130) and [k]
    (from U+212A). *)
Definition foreign_lower (e : string) : Prop :=
  e <> EmptyString
  /\ forall x, occurs x e -> is_lower x = true -> x = "i"%char \/ x = "k"%char.

(** [s.upper()] and [s.lower()].  On ASCII characters they are the ASCII
    case maps; a character outside ASCII upper-cases to any string (U+017F
    to S, U+00DF to SS, U+FB06 to ST) and lower-cases to a [foreign_lower]
    one.  The image of such a character may depend on its neighbours, as
    that of a capital sigma does under [lower]. *)
Class Unicode : Type := {
  upper : string -> string;
  lower : string -> string;
  upper_law : forall s, case_mapped upper_char (fun _ => True) s (upper s);
  lower_law : forall s, case_mapped lower_char foreign_lower s (lower s)
}.

End PyStr.

(* ===================================================================== *)
(** * The regular expression [\{.*\}] with [re.DOTALL] *)
(* ===================================================================== *)

Module Regex.

(** [.*\}] anchored at the head of [s], greedy: the longest prefix of [s]
    that ends in a closing brace.  The star first takes everything and backs
    off one character at a time, so a match further right is preferred. *)
Fixpoint greedy_to_rbrace (s : string) : option string :=
  match s with
  | EmptyString => None
  | String c t =>
      match greedy_to_rbrace t with
      | Some m => Some (String c m)
      | None => if Ascii.eqb c "}" then Some (PyStr.chr "}") else None
      end
  end.

(** [re.search(r'\{.*\}', s, re.DOTALL)], returning [group(0)]: start
    positions are tried from the left, and the first that matches wins. *)
Fixpoint search_braces (s : string) : option string :=
  match s with
  | EmptyString => None
  | String c t =>
      if Ascii.eqb c "{" then
        match greedy_to_rbrace t with
        | Some m => Some (String "{" m)
        | None => search_braces t
        end
      else search_braces t
  end.

End Regex.

(* ===================================================================== *)
(** * Python values and exceptions *)
(* ===================================================================== *)

(** What [json.loads] can return: [None], [bool], [int], [float], [str],
    [list] and [dict] (keys of a decoded object are strings). *)
Inductive pyval : Type :=
| PNone
| PBool (b : bool)
| PInt (n : Z)
| PFloat (f : float)
| PStr (s : string)
| PList (l : list pyval)
| PDict (d : list (string * pyval)).

Definition pydict : Type := list (string * pyval).

(** The subclasses of [Exception] the service can meet. *)
Inductive exn : Type :=
| ValueError (msg : string)
| JSONDecodeError (msg : string)
| TypeError
| AttributeError
| KeyError (key : string)
| OtherException (name : string).

Inductive exc (A : Type) : Type :=
| Ok (a : A)
| Raise (e : exn).
Arguments Ok {A} a.
Arguments Raise {A} e.

Definition bind {A B : Type} (m : exc A) (k : A -> exc B) : exc B :=
  match m with
  | Ok a => k a
  | Raise e => Raise e
  end.

Declare Scope exc_scope.
Delimit Scope exc_scope with exc.
Notation "x <- m ;; k" := (bind m (fun x => k))
  (at level 61, m at next level, right associativity) : exc_scope.
Notation "' pat <- m ;; k" := (bind m (fun x => match x with pat => k end))
  (at level 61, pat pattern, m at next level, right associativity) : exc_scope.
Open Scope exc_scope.

Module Py.

(** Lookup of the binding of [k], the first one in the list. *)
Fixpoint assoc {V : Type} (k : string) (d : list (string * V)) : option V :=
  match d with
  | [] => None
  | (k', v) :: rest => if String.eqb k k' then Some v else assoc k rest
  end.

(** The value bound to [k] in the items of a dict, [default] without one. *)
Definition field (items : list (string * pyval)) (k : string)
    (default : pyval) : pyval :=
  match assoc k items with
  | Some v => v
  | None => default
  end.

(** [d.get(k, default)]; an object without a [get] attribute raises. *)
Definition get (d : pyval) (k : string) (default : pyval) : exc pyval :=
  match d with
  | PDict items => Ok (field items k default)
  | _ => Raise AttributeError
  end.

(** [d[k]]. *)
Definition getitem (d : pyval) (k : string) : exc pyval :=
  match d with
  | PDict items =>
      match assoc k items with
      | Some v => Ok v
      | None => Raise (KeyError k)
      end
  | _ => Raise TypeError
  end.

(** Truth value of an object, as [not] and [if] test it. *)
Definition truthy (v : pyval) : bool :=
  match v with
  | PNone => false
  | PBool b => b
  | PInt n => negb (n =? 0)%Z
  | PFloat f => negb (PrimFloat.eqb f 0%float)
  | PStr s => negb (String.eqb s EmptyString)
  | PList l => match l with [] => false | _ => true end
  | PDict d => match d with [] => false | _ => true end
  end.

(** [v < 40]: numbers compare (a [bool] is an [int]), anything else raises
    [TypeError]. *)
Definition lt_40 (v : pyval) : exc bool :=
  match v with
  | PBool b => Ok (Z.b2z b <? 40)%Z
  | PInt n => Ok (n <? 40)%Z
  | PFloat f => Ok (PrimFloat.ltb f 40%float)
  | _ => Raise TypeError
  end.

(** The keys of a dict, each once. *)
Fixpoint keys {V : Type} (d : list (string * V)) : list string :=
  match d with
  | [] => []
  | (k, _) :: rest =>
      k :: filter (fun k' => negb (String.eqb k k')) (keys rest)
  end.

(** [len(v)]. *)
Definition len (v : pyval) : exc nat :=
  match v with
  | PStr s => Ok (String.length s)
  | PList l => Ok (List.length l)
  | PDict d => Ok (List.length (keys d))
  | _ => Raise TypeError
  end.

(** [v.upper()] and [v.lower()]: only a [str] has them. *)
Definition upper {U : PyStr.Unicode} (v : pyval) : exc string :=
  match v with
  | PStr s => Ok (PyStr.upper s)
  | _ => Raise AttributeError
  end.

Definition lower {U : PyStr.Unicode} (v : pyval) : exc string :=
  match v with
  | PStr s => Ok (PyStr.lower s)
  | _ => Raise AttributeError
  end.

(** The characters of a string, as the one-character strings an iteration
    over it yields. *)
Fixpoint chars (s : string) : list pyval :=
  match s with
  | EmptyString => []
  | String c t => PStr (PyStr.chr c) :: chars t
  end.

(** [v += s] for a [str] [s]: concatenation on a [str], [extend] on a
    [list], [TypeError] otherwise. *)
Definition iadd_str (v : pyval) (s : string) : exc pyval :=
  match v with
  | PStr a => Ok (PStr (a ++ s))
  | PList l => Ok (PList (l ++ chars s))
  | _ => Raise TypeError
  end.

Section Str.

(** [str(v)] for a value that is not a string (the builtin's rendering of
    [None], numbers, lists and dicts). *)
Variable repr : pyval -> string.

(** [str(v)], also what an f-string field formats to. *)
Definition str (v : pyval) : string :=
  match v with
  | PStr s => s
  | _ => repr v
  end.

End Str.

End Py.

(* ===================================================================== *)
(** * The knowledge base *)
(* ===================================================================== *)

(** One pest or disease, as the dict literals of the two builders have it. *)
Record KnowledgeRecord : Type := {
  scientific_name : string;
  local_name : string;
  crops_affected : list string;
  description : string;
  control_methods : list string
}.

(** A table: identifier to record, in insertion order (the order in which
    [dict.items()] yields). *)
Definition database : Type := list (string * KnowledgeRecord).

Definition _build_pest_database : database :=
  [ ("armyworm",
     {| scientific_name := "Spodoptera litura / frugiperda";
        local_name := "Harabas / Uod";
        crops_affected := ["rice"; "corn"; "onion"];
        description := "Larvae feed on leaves leaving only veins. Major pest in Nueva Ecija and Pangasinan.";
        control_methods := ["Biological control (Trichogramma)";
                            "Spray Bacillus thuringiensis (Bt)";
                            "Use pheromone traps"] |});
    ("rice_black_bug",
     {| scientific_name := "Scotinophara coarctata";
        local_name := "Itim na Atangya";
        crops_affected := ["rice"];
        description := "Sucks sap from the base of the plant causing 'bugburn'. Common in Bicol and Visayas.";
        control_methods := ["Light trapping during full moon";
                            "Herding ducks in the field";
                            "Submerge eggs by raising water level"] |});
    ("brown_planthopper",
     {| scientific_name := "Nilaparvata lugens";
        local_name := "Kayumangging Atangya";
        crops_affected := ["rice"];
        description := "Causes 'hopperburn' (browning and drying of crops). Transmits Ragged Stunt Virus.";
        control_methods := ["Use resistant varieties (NSIC Rc)";
                            "Avoid excessive nitrogen fertilizer";
                            "Synchronous planting"] |});
    ("corn_borer",
     {| scientific_name := "Ostrinia furnacalis";
        local_name := "Uod ng Mais";
        crops_affected := ["corn"];
        description := "Larvae bore into stalks and ears. The most destructive corn pest in PH.";
        control_methods := ["Detasseling"; "Trichogramma release";
                            "Planting Bt Corn (if approved)"] |});
    ("cocolisap",
     {| scientific_name := "Aspidiotus rigidus";
        local_name := "Cocolisap";
        crops_affected := ["coconut"; "lanzones"];
        description := "Scale insects covering leaves, blocking photosynthesis. Historic outbreak in CALABARZON.";
        control_methods := ["Pruning and burning affected parts";
                            "Systemic trunk injection (FPA approved)";
                            "Release of biocontrol agents"] |});
    ("mango_cecid_fly",
     {| scientific_name := "Procontarinia spp.";
        local_name := "Kurikong";
        crops_affected := ["mango"];
        description := "Causes circular, brown, scab-like lesions on fruit skin.";
        control_methods := ["Pruning overcrowded branches";
                            "Bagging fruits early";
                            "Proper orchard sanitation"] |});
    ("stem_borer",
     {| scientific_name := "Scirpophaga incertulas";
        local_name := "Aksip / Stem Borer";
        crops_affected := ["rice"];
        description := "Larvae bore into stem causing 'deadheart' (young stage) or 'whitehead' (reproductive stage).";
        control_methods := ["Light traps"; "Pheromone traps";
                            "Conservation of natural enemies"] |}) ].

Definition _build_disease_database : database :=
  [ ("rice_blast",
     {| scientific_name := "Magnaporthe oryzae";
        local_name := "Leeg-leeg (Neck Blast)";
        crops_affected := ["rice"];
        description := "Diamond-shaped lesions on leaves or rotting of the panicle neck.";
        control_methods := ["Avoid excessive nitrogen"; "Keep field flooded";
                            "Use fungicides (Tricyclazole) as last resort"] |});
    ("tungro",
     {| scientific_name := "Rice Tungro Bacilliform Virus";
        local_name := "Tungro";
        crops_affected := ["rice"];
        description := "Yellow-orange discoloration of leaves, stunted growth. Vectored by Green Leafhopper.";
        control_methods := ["Plant resistant varieties (Matatag lines)";
                            "Control leafhopper vectors";
                            "Roguing (removal) of infected plants"] |});
    ("bacterial_leaf_blight",
     {| scientific_name := "Xanthomonas oryzae";
        local_name := "Kuyog";
        crops_affected := ["rice"];
        description := "Yellowing and drying of leaf tips and margins. Common in wet season.";
        control_methods := ["Balanced fertilization"; "Proper drainage";
                            "Clean field sanitation"] |});
    ("panama_disease",
     {| scientific_name := "Fusarium oxysporum TR4";
        local_name := "Fusarium Wilt";
        crops_affected := ["banana"];
        description := "Yellowing of older leaves, vascular discoloration. Major threat in Mindanao plantations.";
        control_methods := ["Quarantine infected areas";
                            "Disinfect tools/footwear";
                            "Plant GCTCV-218 (resistant variety)"] |}) ].

(** A list of strings and a record as Python values, for the result dict. *)
Definition str_list (l : list string) : pyval := PList (map PStr l).

Definition record_value (info : KnowledgeRecord) : pyval :=
  PDict [ ("scientific_name", PStr (scientific_name info));
          ("local_name", PStr (local_name info));
          ("crops_affected", str_list (crops_affected info));
          ("description", PStr (description info));
          ("control_methods", str_list (control_methods info)) ].

(** A variable that holds [None] or a record. *)
Definition optional_record (o : option KnowledgeRecord) : pyval :=
  match o with
  | None => PNone
  | Some info => record_value info
  end.

(** The service object: its configuration and its two tables. *)
Record ImageAnalysisService : Type := {
  ollama_base_url : string;
  ollama_vision_model : string;
  pest_database : database;
  disease_database : database
}.

(** [__init__], with [os.getenv] as a lookup in the environment. *)
Definition __init__ (environ : list (string * string)) : ImageAnalysisService :=
  {| ollama_base_url :=
       match Py.assoc "OLLAMA_BASE_URL" environ with
       | Some v => v
       | None => "http://localhost:11434"
       end;
     ollama_vision_model :=
       match Py.assoc "OLLAMA_VISION_MODEL" environ with
       | Some v => v
       | None => "llava"
       end;
     pest_database := _build_pest_database;
     disease_database := _build_disease_database |}.

(* ===================================================================== *)
(** * The response parser *)
(* ===================================================================== *)

(** [_get_fallback_analysis]: the fixed result that admits failure. *)
Definition _get_fallback_analysis : pydict :=
  [ ("plant_type", PStr "Analysis Failed");
    ("pest_detected", PBool false);
    ("disease_detected", PBool false);
    ("health_status", PStr "System Error");
    ("natural_summary",
     PStr "I'm sorry, I couldn't analyze that image clearly. Please try again with a better photo.");
    ("recommendations", PList []);
    ("sources", PList []) ].

(** The sentence appended to a short summary on a match. *)
Definition resembles (info : KnowledgeRecord) : string :=
  " This resembles " ++ local_name info ++ ".".

(** The test of the matching loops: the identifier with underscores turned
    into spaces, or the local name, occurs in the upper-cased issue. *)
Definition record_matches {U : PyStr.Unicode} (key : string)
    (info : KnowledgeRecord) (content_upper : string) : bool :=
  PyStr.str_in (PyStr.upper (PyStr.replace_char "_" " " key)) content_upper
  || PyStr.str_in (PyStr.upper (local_name info)) content_upper.

(** The variables that the matching loops and the healthy branch share. *)
Record locals : Type := {
  recommendations : list string;
  natural_summary : pyval
}.

(** [for key, info in table.items(): if ...: ...; break].  The pest loop
    and the disease loop are this loop, each on its own table and with its
    own info variable, [None] before the loop: the first component of the
    result is that variable after the loop.  Entering the [if] assigns
    [recommendations], the info variable and possibly [natural_summary],
    and leaves the loop; [len] or [+=] may raise on the way. *)
Fixpoint match_loop {U : PyStr.Unicode} (items : database)
    (content_upper : string) (vars : locals)
    : exc (option KnowledgeRecord * locals) :=
  match items with
  | [] => Ok (None, vars)
  | (key, info) :: rest =>
      if record_matches key info content_upper then
        n <- Py.len (natural_summary vars) ;;
        summary <- (if (n <? 50)%nat
                    then Py.iadd_str (natural_summary vars) (resembles info)
                    else Ok (natural_summary vars)) ;;
        Ok (Some info,
            {| recommendations := control_methods info;
               natural_summary := summary |})
      else match_loop rest content_upper vars
  end.

Section Parser.

Context {U : PyStr.Unicode}.

(** [json.loads] and the builtin rendering of non-string values. *)
Variable json_loads : string -> exc pyval.
Variable repr : pyval -> string.
Variable self : ImageAnalysisService.

(** [re.search(pattern, content, re.DOTALL)]: the pattern is a [str]
    pattern, so anything but a [str] subject raises [TypeError]. *)
Definition re_search (content : pyval) : exc (option string) :=
  match content with
  | PStr s => Ok (Regex.search_braces s)
  | _ => Raise TypeError
  end.

(** Lines 186-191: the candidate substring, decoded. *)
Definition extract_json (content : pyval) : exc pyval :=
  json_match <- re_search content ;;
  match json_match with
  | Some json_str => json_loads json_str
  | None => Raise (ValueError "No valid JSON found in response")
  end.

(** Lines 195-198: [not is_agricultural or confidence < 40]. *)
Definition rejects (data : pyval) : exc bool :=
  is_agricultural <- Py.get data "is_agricultural" (PBool false) ;;
  confidence <- Py.get data "confidence_score" (PInt 100) ;;
  if negb (Py.truthy is_agricultural) then Ok true
  else Py.lt_40 confidence.

(** Lines 199-209. *)
Definition non_agricultural_result (data : pyval) : exc pydict :=
  natural_response <-
    Py.get data "natural_response"
      (PStr "I'm sorry, I couldn't recognize a plant or crop in this image.") ;;
  Ok [ ("plant_type", PStr "Non-Agricultural Object");
       ("pest_detected", PBool false);
       ("disease_detected", PBool false);
       ("health_status", PStr "Not Agricultural");
       ("severity", PStr "None");
       ("recommendations",
        str_list ["Please upload a clear photo of a crop, plant, or pest."]);
       ("sources", PList []);
       ("natural_summary", natural_response) ].

(** Lines 248-251: the branch taken when no flag is set. *)
Definition healthy_branch (plant_type condition : pyval) (vars : locals)
    : exc locals :=
  condition_lower <- Py.lower condition ;;
  short <- (if PyStr.str_in "healthy" condition_lower
            then n <- Py.len (natural_summary vars) ;; Ok (n <? 10)%nat
            else Ok false) ;;
  Ok {| recommendations := ["Continue Good Agricultural Practices (GAP).";
                            "Regular monitoring."];
        natural_summary :=
          if short
          then PStr ("The " ++ Py.str repr plant_type
                     ++ " looks healthy. Keep up the good work!")
          else natural_summary vars |}.

(** Lines 211-264: the agricultural branch.  Both flags read
    [condition.upper()]; the call is made once here. *)
Definition agricultural_result (data : pyval) : exc pydict :=
  plant_type <- Py.get data "plant_name" (PStr "Unknown Crop") ;;
  detected_issue <- Py.get data "detected_issue" (PStr EmptyString) ;;
  condition <- Py.get data "condition" (PStr "Unknown") ;;
  natural_response <- Py.get data "natural_response" (PStr EmptyString) ;;
  condition_upper <- Py.upper condition ;;
  let pest_detected := PyStr.str_in "PEST" condition_upper in
  let disease_detected := PyStr.str_in "DISEASE" condition_upper in
  let vars0 := {| recommendations := ["Monitor the crop closely.";
                                       "Consult your local technician."];
                  natural_summary := natural_response |} in
  let content_upper := PyStr.upper (Py.str repr detected_issue) in
  '(pest_info, vars1) <-
    (if pest_detected
     then match_loop (pest_database self) content_upper vars0
     else Ok (None, vars0)) ;;
  '(disease_info, vars2) <-
    (if disease_detected
     then match_loop (disease_database self) content_upper vars1
     else Ok (None, vars1)) ;;
  vars3 <- (if negb pest_detected && negb disease_detected
            then healthy_branch plant_type condition vars2
            else Ok vars2) ;;
  Ok [ ("plant_type", plant_type);
       ("pest_detected", PBool pest_detected);
       ("disease_detected", PBool disease_detected);
       ("health_status", condition);
       ("severity",
        PStr (if pest_detected || disease_detected
              then "Moderate" else "None"));
       ("pest_info", optional_record pest_info);
       ("disease_info", optional_record disease_info);
       ("recommendations", str_list (recommendations vars3));
       ("sources", PList []);
       ("natural_summary", natural_summary vars3) ].

(** The body of the [try] of [_parse_llm_analysis]. *)
Definition parse_body (content : pyval) : exc pydict :=
  data <- extract_json content ;;
  reject <- rejects data ;;
  if reject then non_agricultural_result data
  else agricultural_result data.

End Parser.

(* ===================================================================== *)
(** * Logging, and the two [try ... except Exception] wrappers *)
(* ===================================================================== *)

(** The records handed to the module's logger. *)
Inductive log_record : Type :=
| InfoAnalyzing (filename model : string)
| InfoRawResponse (content : pyval)
| ErrorJsonParse (e : exn)
| ErrorAnalysisFailed (e : exn).

(** A computation that may raise and that appends to the log. *)
Definition logged (A : Type) : Type :=
  list log_record -> exc A * list log_record.

Definition ret {A : Type} (a : A) : logged A := fun log => (Ok a, log).

Definition lift {A : Type} (m : exc A) : logged A := fun log => (m, log).

Definition bindL {A B : Type} (m : logged A) (k : A -> logged B) : logged B :=
  fun log =>
    match m log with
    | (Ok a, log') => k a log'
    | (Raise e, log') => (Raise e, log')
    end.

Definition emit (r : log_record) : logged unit :=
  fun log => (Ok tt, (log ++ [r])%list).

(** [try: body except Exception as e: handler e], around a body in which
    only subclasses of [Exception] are raised. *)
Definition try_except {A : Type} (body : logged A) (handler : exn -> logged A)
    : logged A :=
  fun log =>
    match body log with
    | (Ok a, log') => (Ok a, log')
    | (Raise e, log') => handler e log'
    end.

Notation "x <~ m ;; k" := (bindL m (fun x => k))
  (at level 61, m at next level, right associativity) : exc_scope.

(** The exceptions that derive from [BaseException] and not from
    [Exception]. *)
Inductive base_exception : Type :=
| KeyboardInterrupt
| SystemExit
| GeneratorExit.

(** What a call into the outside does: it returns, it raises a subclass
    of [Exception], or a [base_exception] comes out of it. *)
Inductive outcome (A : Type) : Type :=
| Returns (a : A)
| Raises (e : exn)
| Escapes (b : base_exception).
Arguments Returns {A} a.
Arguments Raises {A} e.
Arguments Escapes {A} b.

(** A computation that logs and that a [base_exception] may leave.  The
    service waits in one place, the call of the model: that is where an
    interrupt or an exit is taken to arrive. *)
Definition interruptible (A : Type) : Type :=
  list log_record -> outcome A * list log_record.

Definition of_logged {A : Type} (m : logged A) : interruptible A :=
  fun log =>
    match m log with
    | (Ok a, log') => (Returns a, log')
    | (Raise e, log') => (Raises e, log')
    end.

Definition called {A : Type} (result : outcome A) : interruptible A :=
  fun log => (result, log).

Definition bindI {A B : Type} (m : interruptible A)
    (k : A -> interruptible B) : interruptible B :=
  fun log =>
    match m log with
    | (Returns a, log') => k a log'
    | (Raises e, log') => (Raises e, log')
    | (Escapes b, log') => (Escapes b, log')
    end.

(** [try: body except Exception as e: handler e], around a body that a
    [base_exception] may leave: the handler is not entered for it, and it
    goes on to the caller. *)
Definition try_except_exception {A : Type} (body : interruptible A)
    (handler : exn -> interruptible A) : interruptible A :=
  fun log =>
    match body log with
    | (Returns a, log') => (Returns a, log')
    | (Raises e, log') => handler e log'
    | (Escapes b, log') => (Escapes b, log')
    end.

Notation "x <~~ m ;; k" := (bindI m (fun x => k))
  (at level 61, m at next level, right associativity) : exc_scope.

(** The double quote, for the literals that contain it. *)
Definition dq : string := PyStr.chr (ascii_of_nat 34).
Definition nl : string := PyStr.chr (ascii_of_nat 10).
Definition quoted (s : string) : string := dq ++ s ++ dq.

(** One line of the prompt, at the indentation of the source. *)
Definition ln (s : string) : string := "            " ++ s ++ nl.

(** The f-string of lines 133-162. *)
Definition build_prompt (context : string) : string :=
  nl
  ++ ln "Act as an expert Philippine Agricultural System. Analyze this image."
  ++ nl
  ++ ln ("Context provided: " ++ context)
  ++ nl
  ++ ln "STEP 1: VISUAL IDENTIFICATION (Reasoning)"
  ++ ln "- Look at the image content. What is the main subject?"
  ++ ln "- Is it a CROP (rice, corn, vegetable, fruit) or a PEST on a plant?"
  ++ ln ("- IF the image is a person, selfie, car, document, room, animal, or blurry object: MARK "
         ++ quoted "is_agricultural" ++ " AS FALSE.")
  ++ nl
  ++ ln "STEP 2: DIAGNOSIS (Only if Agricultural)"
  ++ ln "- Identify the specific plant."
  ++ ln "- Check for specific symptoms: leaf spots, yellowing, holes, or visible insects."
  ++ ln ("- If no symptoms are visible, mark as " ++ quoted "Healthy" ++ ".")
  ++ nl
  ++ ln "STEP 3: GENERATE RESPONSE"
  ++ ln ("- Create a " ++ quoted "natural_response"
         ++ ": A helpful, polite sentence for the farmer in English.")
  ++ ln ("  - If NOT agricultural, say: "
         ++ quoted "I cannot analyze this. It looks like a [object], not a crop.")
  ++ ln "  - If agricultural, explain what you see naturally."
  ++ nl
  ++ ln "Output VALID JSON ONLY:"
  ++ ln "{"
  ++ ln ("    " ++ quoted "is_agricultural" ++ ": boolean,")
  ++ ln ("    " ++ quoted "plant_name" ++ ": " ++ quoted "string or 'Unknown'" ++ ",")
  ++ ln ("    " ++ quoted "detected_issue" ++ ": "
         ++ quoted "string (e.g. 'Stem Borer', 'Rice Blast', 'None')" ++ ",")
  ++ ln ("    " ++ quoted "condition" ++ ": " ++ quoted "Healthy" ++ " | "
         ++ quoted "Pest Detected" ++ " | " ++ quoted "Disease Detected"
         ++ " | " ++ quoted "N/A" ++ ",")
  ++ ln ("    " ++ quoted "confidence_score" ++ ": number (0-100),")
  ++ ln ("    " ++ quoted "natural_response" ++ ": " ++ quoted "string")
  ++ ln "}"
  ++ "            ".

(** One entry of the [messages] argument of [ollama.chat]. *)
Record message : Type := {
  role : string;
  content : string;
  images : list (list Byte.byte)
}.

Section Service.

Context {U : PyStr.Unicode}.
Variable json_loads : string -> exc pyval.
Variable repr : pyval -> string.
(** [ollama.chat(model=..., messages=...)]: returns the response object,
    raises, or is left by a [base_exception]. *)
Variable ollama_chat : string -> list message -> outcome pyval.
Variable self : ImageAnalysisService.

(** Lines 182-269. *)
Definition _parse_llm_analysis (content : pyval) : logged pydict :=
  try_except
    (lift (parse_body json_loads repr self content))
    (fun e =>
       _ <~ emit (ErrorJsonParse e) ;;
       ret _get_fallback_analysis).

(** Lines 125-180. *)
Definition analyze_image (image_data : list Byte.byte)
    (filename context : string) : interruptible pydict :=
  try_except_exception
    (_ <~~ of_logged
             (emit (InfoAnalyzing filename (ollama_vision_model self))) ;;
     let prompt := build_prompt context in
     response <~~ called (ollama_chat (ollama_vision_model self)
                            [ {| role := "user";
                                 content := prompt;
                                 images := [image_data] |} ]) ;;
     content <~~ of_logged
                   (lift (message <- Py.getitem response "message" ;;
                          Py.getitem message "content")) ;;
     _ <~~ of_logged (emit (InfoRawResponse content)) ;;
     of_logged (_parse_llm_analysis content))
    (fun e =>
       _ <~~ of_logged (emit (ErrorAnalysisFailed e)) ;;
       of_logged (ret _get_fallback_analysis)).

End Service.

(* ===================================================================== *)
(** * A reference decoder for the examples *)
(* ===================================================================== *)

(** [json.loads] on the fragment of JSON that the prompt asks for: objects,
    arrays, strings with the one-character escapes, integers, [true],
    [false] and [null].  Fractions, exponents and [\u] escapes are outside
    the fragment and are refused.  The theorems below hold for every decoder;
    this one instantiates them on concrete model outputs. *)
Module JsonRef.

Definition is_ws (c : ascii) : bool :=
  let n := nat_of_ascii c in
  (n =? 32)%nat || (n =? 9)%nat || (n =? 10)%nat || (n =? 13)%nat.

Fixpoint skip_ws (s : string) : string :=
  match s with
  | String c t => if is_ws c then skip_ws t else s
  | EmptyString => s
  end.

Definition digit (c : ascii) : option Z :=
  let n := nat_of_ascii c in
  if (48 <=? n)%nat && (n <=? 57)%nat then Some (Z.of_nat (n - 48)) else None.

Fixpoint digits (s : string) (acc : Z) : Z * string :=
  match s with
  | String c t =>
      match digit c with
      | Some d => digits t (10 * acc + d)%Z
      | None => (acc, s)
      end
  | EmptyString => (acc, s)
  end.

(** The integer at the head of [s], after an optional sign. *)
Definition unsigned (s : string) : option (Z * string) :=
  match s with
  | String c t =>
      match digit c with
      | Some 0%Z => Some (0%Z, t)
      | Some d => Some (digits t d)
      | None => None
      end
  | EmptyString => None
  end.

Definition fraction_follows (s : string) : bool :=
  match s with
  | String c _ => Ascii.eqb c "." || Ascii.eqb c "e" || Ascii.eqb c "E"
  | EmptyString => false
  end.

Definition escape (c : ascii) : option ascii :=
  let n := nat_of_ascii c in
  if (n =? 34)%nat || (n =? 92)%nat || (n =? 47)%nat then Some c
  else if Ascii.eqb c "n" then Some (ascii_of_nat 10)
  else if Ascii.eqb c "t" then Some (ascii_of_nat 9)
  else if Ascii.eqb c "r" then Some (ascii_of_nat 13)
  else if Ascii.eqb c "b" then Some (ascii_of_nat 8)
  else if Ascii.eqb c "f" then Some (ascii_of_nat 12)
  else None.

(** The characters of a string literal after its opening quote, up to the
    closing one, and what follows it. *)
Fixpoint str_body (s : string) : option (string * string) :=
  match s with
  | EmptyString => None
  | String c t =>
      let n := nat_of_ascii c in
      if (n =? 34)%nat then Some (EmptyString, t)
      else if (n <? 32)%nat then None
      else if (n =? 92)%nat then
        match t with
        | String e t' =>
            match escape e, str_body t' with
            | Some c', Some (body, rest) => Some (String c' body, rest)
            | _, _ => None
            end
        | EmptyString => None
        end
      else
        match str_body t with
        | Some (body, rest) => Some (String c body, rest)
        | None => None
        end
  end.

(** Assignment in a dict under construction: a repeated key keeps its
    place and takes the later value. *)
Fixpoint set (k : string) (v : pyval) (d : pydict) : pydict :=
  match d with
  | [] => [(k, v)]
  | (k', v') :: rest =>
      if String.eqb k k' then (k', v) :: rest else (k', v') :: set k v rest
  end.

Definition expect (c : ascii) (s : string) : option string :=
  match s with
  | String a t => if Ascii.eqb a c then Some t else None
  | EmptyString => None
  end.

Definition literal (word : string) (v : pyval) (s : string)
    : option (pyval * string) :=
  if PyStr.starts_with word s
  then Some (v, String.substring (String.length word)
                  (String.length s - String.length word) s)
  else None.

Fixpoint value (fuel : nat) (s : string) : option (pyval * string) :=
  match fuel with
  | O => None
  | S fuel' =>
      match s with
      | EmptyString => None
      | String c t =>
          if Ascii.eqb c "{" then
            match expect "}" (skip_ws t) with
            | Some rest => Some (PDict [], rest)
            | None => members fuel' (skip_ws t) []
            end
          else if Ascii.eqb c "[" then
            match expect "]" (skip_ws t) with
            | Some rest => Some (PList [], rest)
            | None => elements fuel' (skip_ws t) []
            end
          else if (nat_of_ascii c =? 34)%nat then
            match str_body t with
            | Some (body, rest) => Some (PStr body, rest)
            | None => None
            end
          else if Ascii.eqb c "-" then
            match unsigned t with
            | Some (n, rest) =>
                if fraction_follows rest then None
                else Some (PInt (- n), rest)
            | None => None
            end
          else if Ascii.eqb c "t" then literal "true" (PBool true) s
          else if Ascii.eqb c "f" then literal "false" (PBool false) s
          else if Ascii.eqb c "n" then literal "null" PNone s
          else
            match unsigned s with
            | Some (n, rest) =>
                if fraction_follows rest then None else Some (PInt n, rest)
            | None => None
            end
      end
  end
with members (fuel : nat) (s : string) (acc : pydict)
    : option (pyval * string) :=
  match fuel with
  | O => None
  | S fuel' =>
      match expect (ascii_of_nat 34) s with
      | None => None
      | Some s1 =>
          match str_body s1 with
          | None => None
          | Some (key, s2) =>
              match expect ":" (skip_ws s2) with
              | None => None
              | Some s3 =>
                  match value fuel' (skip_ws s3) with
                  | None => None
                  | Some (v, s4) =>
                      let acc' := set key v acc in
                      match expect "," (skip_ws s4) with
                      | Some s5 => members fuel' (skip_ws s5) acc'
                      | None =>
                          match expect "}" (skip_ws s4) with
                          | Some rest => Some (PDict acc', rest)
                          | None => None
                          end
                      end
                  end
              end
          end
      end
  end
with elements (fuel : nat) (s : string) (acc : list pyval)
    : option (pyval * string) :=
  match fuel with
  | O => None
  | S fuel' =>
      match value fuel' s with
      | None => None
      | Some (v, s1) =>
          match expect "," (skip_ws s1) with
          | Some s2 => elements fuel' (skip_ws s2) (acc ++ [v])
          | None =>
              match expect "]" (skip_ws s1) with
              | Some rest => Some (PList (acc ++ [v]), rest)
              | None => None
              end
          end
      end
  end.

(** [json.loads(s)]: one value between optional blanks, and nothing else. *)
Definition loads (s : string) : exc pyval :=
  match value (S (String.length s)) (skip_ws s) with
  | Some (v, rest) =>
      match skip_ws rest with
      | EmptyString => Ok v
      | _ => Raise (JSONDecodeError "Extra data")
      end
  | None => Raise (JSONDecodeError "Expecting value")
  end.

(** [str(v)] for [None], booleans and integers; the examples render no
    other non-string value. *)
Definition repr (v : pyval) : string :=
  match v with
  | PNone => "None"
  | PBool true => "True"
  | PBool false => "False"
  | PInt n => DecimalString.NilZero.string_of_int (Z.to_int n)
  | _ => EmptyString
  end.

End JsonRef.

(* ===================================================================== *)
(** * A sample of the Unicode tables for the examples *)
(* ===================================================================== *)

(** An instance of [PyStr.Unicode] in which two codes stand for characters
    that upper-case into ASCII letters, and every other code outside ASCII
    for a character without case.  The theorems hold for every instance;
    this one runs them on concrete texts. *)
Module UnicodeSample.

(** U+017F, the long s, and U+00DF, the sharp s. *)
Definition long_s : ascii := ascii_of_nat 191.
Definition sharp_s : ascii := ascii_of_nat 223.

Definition upper1 (c : ascii) : string :=
  if PyStr.is_ascii c then PyStr.chr (PyStr.upper_char c)
  else if Ascii.eqb c long_s then "S"
  else if Ascii.eqb c sharp_s then "SS"
  else PyStr.chr c.

Fixpoint upper (s : string) : string :=
  match s with
  | EmptyString => EmptyString
  | String c t => upper1 c ++ upper t
  end.

Definition upper_law (s : string) :
  PyStr.case_mapped PyStr.upper_char (fun _ => True) s (upper s).
Proof.
  induction s as [|c s IH]; simpl; [constructor |].
  unfold upper1. destruct (PyStr.is_ascii c) eqn:A.
  - now apply PyStr.mapped_ascii.
  - now apply PyStr.mapped_other.
Qed.

Definition lower_law (s : string) :
  PyStr.case_mapped PyStr.lower_char PyStr.foreign_lower s (PyStr.ascii_lower s).
Proof.
  induction s as [|c s IH]; [constructor |].
  change (PyStr.ascii_lower (String c s))
    with (String (PyStr.lower_char c) (PyStr.ascii_lower s)).
  destruct (PyStr.is_ascii c) eqn:A.
  - now apply PyStr.mapped_ascii.
  - assert (E : PyStr.lower_char c = c /\ PyStr.is_lower c = false).
    { clear -A. destruct c as [[] [] [] [] [] [] [] []];
        try discriminate A; split; reflexivity. }
    destruct E as [E L]. rewrite E.
    apply (PyStr.mapped_other _ _ c (PyStr.chr c)); [exact A | | exact IH].
    split; [discriminate |].
    intros x [<- | []] H. rewrite L in H. discriminate.
Qed.

Definition tables : PyStr.Unicode :=
  {| PyStr.upper := upper;
     PyStr.lower := PyStr.ascii_lower;
     PyStr.upper_law := upper_law;
     PyStr.lower_law := lower_law |}.

End UnicodeSample.

(** The service as the module builds it, with an empty environment. *)
Definition image_analysis_service : ImageAnalysisService := __init__ [].

(** The parser on a raw text, with the reference decoder, and its result. *)
Definition parse_text (raw : string) : exc pydict :=
  fst (_parse_llm_analysis (U := UnicodeSample.tables) JsonRef.loads
         JsonRef.repr image_analysis_service (PStr raw) []).

(* ===================================================================== *)
(** * The vocabulary of the specification *)
(* ===================================================================== *)

(** Equality of two strings up to the case of their ASCII letters. *)
Definition ci_equal (a b : string) : Prop :=
  PyStr.ascii_lower a = PyStr.ascii_lower b.

(** [pat] occurs in [s], case-insensitively: some substring of [s] equals
    [pat] up to case. *)
Definition ci_substring (pat s : string) : Prop :=
  exists pre w post, s = pre ++ w ++ post /\ ci_equal w pat.

(** The outcome of the table lookup as the specification words it: the
    first record, in table order, that matches the upper-cased issue wins;
    there is none when no record of the table matches. *)
Inductive wins {U : PyStr.Unicode} (content_upper : string)
    : database -> option KnowledgeRecord -> Prop :=
| wins_nobody (table : database) :
    (forall key info, In (key, info) table ->
                      record_matches key info content_upper = false) ->
    wins content_upper table None
| wins_first (before after : database) (key : string)
    (info : KnowledgeRecord) :
    (forall key' info', In (key', info') before ->
                        record_matches key' info' content_upper = false) ->
    record_matches key info content_upper = true ->
    wins content_upper (before ++ (key, info) :: after)%list (Some info).

(** An accepted agricultural parse: a JSON object is extracted from the raw
    text and decoded to [data], the rejection gate lets it through, and the
    agricultural branch completes with the result [r]. *)
Definition accepted {U : PyStr.Unicode} (json_loads : string -> exc pyval)
    (repr : pyval -> string) (self : ImageAnalysisService)
    (content data : pyval) (r : pydict) : Prop :=
  extract_json json_loads content = Ok data
  /\ rejects data = Ok false
  /\ agricultural_result repr self data = Ok r.

(** The generic recommendations that the matching loops start from. *)
Definition monitor_default : list string :=
  ["Monitor the crop closely."; "Consult your local technician."].

(** A JSON member [key: value] with a string value, and with a bare one. *)
Definition member (key value : string) : string :=
  quoted key ++ ": " ++ quoted value.

Definition member_raw (key value : string) : string :=
  quoted key ++ ": " ++ value.

(** The raw model outputs of the specification's scenarios. *)
Definition scenario_1 : string :=
  "Sure! {" ++ member_raw "is_agricultural" "true" ++ ", "
  ++ member "plant_name" "Rice" ++ ", "
  ++ member "detected_issue" "Stem Borer" ++ ", "
  ++ member "condition" "Pest Detected" ++ ", "
  ++ member_raw "confidence_score" "85" ++ ", "
  ++ member "natural_response" "I see rice with stem damage." ++ "}".

Definition scenario_2 : string :=
  "{" ++ member_raw "is_agricultural" "false" ++ ", "
  ++ member "natural_response"
       "I cannot analyze this. It looks like a car, not a crop." ++ "}".

Definition scenario_3 : string := "Not sure what I'm looking at.".

Definition scenario_4 : string :=
  "{" ++ member_raw "is_agricultural" "true" ++ ", "
  ++ member_raw "confidence_score" "20" ++ ", "
  ++ member "plant_name" "Corn" ++ "}".

Definition scenario_5 : string :=
  "{" ++ member_raw "is_agricultural" "true" ++ ", "
  ++ member "plant_name" "Corn" ++ ", "
  ++ member "condition" "Healthy" ++ ", "
  ++ member "natural_response" EmptyString ++ "}".

(** Both flags set: a pest is named, no disease of the table is. *)
Definition both_flags_pest_only : string :=
  "{" ++ member_raw "is_agricultural" "true" ++ ", "
  ++ member "detected_issue" "Stem Borer" ++ ", "
  ++ member "condition" "Pest and Disease Detected" ++ "}".

(** Both flags set, and the issue names a pest and a disease. *)
Definition both_flags_both_named : string :=
  "{" ++ member_raw "is_agricultural" "true" ++ ", "
  ++ member "plant_name" "Rice" ++ ", "
  ++ member "detected_issue" "Stem borer damage with tungro" ++ ", "
  ++ member "condition" "Pest and Disease Detected" ++ ", "
  ++ member "natural_response" "Rice with two problems." ++ "}".

(** The decoded object and the returned result of a raw text, for the
    examples (a text that fails gives a dummy). *)
Definition decoded (raw : string) : pyval :=
  match extract_json JsonRef.loads (PStr raw) with
  | Ok data => data
  | Raise _ => PNone
  end.

Definition items_of (raw : string) : pydict :=
  match decoded raw with
  | PDict items => items
  | _ => []
  end.

Definition returned (raw : string) : pydict :=
  match parse_text raw with
  | Ok r => r
  | Raise _ => []
  end.

(** A model call that fails in transport. *)
Definition unreachable_model (model : string) (messages : list message)
    : outcome pyval :=
  Raises (OtherException "ConnectionError").


(** The first matching record of a table, as a function. *)
Fixpoint first_match {U : PyStr.Unicode} (table : database)
    (content_upper : string) : option KnowledgeRecord :=
  match table with
  | [] => None
  | (key, info) :: rest =>
      if record_matches key info content_upper then Some info
      else first_match rest content_upper
  end.

(** A condition written with the long s, U+017F, which upper-cases to S. *)
Definition long_s_condition : string :=
  "Pe" ++ PyStr.chr UnicodeSample.long_s ++ "t Detected".

Definition long_s_text : string :=
  "{" ++ member_raw "is_agricultural" "true" ++ ", "
  ++ member "condition" long_s_condition ++ "}".

(** Further raw outputs, for the edge cases of the gate and of the
    agricultural branch. *)
Definition null_flag_text : string :=
  "{" ++ member_raw "is_agricultural" "null" ++ ", "
  ++ member_raw "confidence_score" "95" ++ ", "
  ++ member "natural_response" "A tractor." ++ "}".

Definition string_confidence_text : string :=
  "{" ++ member_raw "is_agricultural" "true" ++ ", "
  ++ member "confidence_score" "85" ++ ", "
  ++ member "plant_name" "Rice" ++ "}".

Definition confidence_forty_text : string :=
  "{" ++ member_raw "is_agricultural" "true" ++ ", "
  ++ member_raw "confidence_score" "40" ++ ", "
  ++ member "plant_name" "Rice" ++ ", "
  ++ member "condition" "Healthy" ++ ", "
  ++ member "natural_response" "The rice looks fine." ++ "}".

Definition null_condition_text : string :=
  "{" ++ member_raw "is_agricultural" "true" ++ ", "
  ++ member_raw "condition" "null" ++ "}".

Definition null_summary_text : string :=
  "{" ++ member_raw "is_agricultural" "true" ++ ", "
  ++ member "detected_issue" "Stem Borer" ++ ", "
  ++ member "condition" "Pest Detected" ++ ", "
  ++ member_raw "natural_response" "null" ++ "}".

Definition null_summary_no_match_text : string :=
  "{" ++ member_raw "is_agricultural" "true" ++ ", "
  ++ member "detected_issue" "Unknown bug" ++ ", "
  ++ member "condition" "Pest Detected" ++ ", "
  ++ member_raw "natural_response" "null" ++ "}".

Definition list_summary_both_flags_text : string :=
  "{" ++ member_raw "is_agricultural" "true" ++ ", "
  ++ member "detected_issue" "Tungro" ++ ", "
  ++ member "condition" "Pest and Disease Detected" ++ ", "
  ++ member_raw "natural_response" ("[" ++ quoted "Sick rice" ++ "]") ++ "}".

(** A record under the identifier [stem_borer], for the examples. *)
Definition stem_borer_sample : KnowledgeRecord :=
  {| scientific_name := "Scirpophaga incertulas";
     local_name := "Aksip / Stem Borer";
     crops_affected := ["rice"];
     description := EmptyString;
     control_methods := ["Light traps"] |}.

Definition boolean_confidence_text : string :=
  "{" ++ member_raw "is_agricultural" "true" ++ ", "
  ++ member_raw "confidence_score" "true" ++ ", "
  ++ member "plant_name" "Rice" ++ "}".

(** A record is found under a name when that name, as the whole issue,
    makes the record win in its table. *)
Definition found_by_its_names {U : PyStr.Unicode} (table : database)
    (entry : string * KnowledgeRecord) : Prop :=
  wins (PyStr.upper (PyStr.replace_char "_" " " (fst entry))) table
    (Some (snd entry))
  /\ wins (PyStr.upper (local_name (snd entry))) table (Some (snd entry)).

(** A model that answers with a message whose content is [None]. *)
Definition silent_model (model : string) (messages : list message)
    : outcome pyval :=
  Returns (PDict [("message", PDict [("content", PNone)])]).

(** The six fields of the decoded object that the parser reads. *)
Definition schema_keys : list string :=
  ["is_agricultural"; "plant_name"; "detected_issue"; "condition";
   "confidence_score"; "natural_response"].

(** Evaluation of a closed goal, and of the three parts of [accepted]. *)
Ltac run := vm_compute; reflexivity.

Ltac accept := unfold accepted; repeat split; run.

(* ===================================================================== *)
(** * Facts about strings *)
(* ===================================================================== *)

Module StrFacts.
Import PyStr.

Lemma app_assoc (a b c : string) : (a ++ b) ++ c = a ++ (b ++ c).
Proof. induction a as [|x a IH]; simpl; [reflexivity | now rewrite IH]. Qed.

Lemma app_nil_r (a : string) : a ++ EmptyString = a.
Proof. induction a as [|x a IH]; simpl; [reflexivity | now rewrite IH]. Qed.

Lemma starts_with_spec (p s : string) :
  starts_with p s = true <-> exists r, s = p ++ r.
Proof.
  revert s; induction p as [|a p IH]; intros s; simpl.
  - split; [intros _; now exists s | reflexivity].
  - destruct s as [|b s].
    + split; [discriminate | intros [r H]; discriminate].
    + rewrite andb_true_iff, Ascii.eqb_eq, IH. split.
      * intros [-> [r ->]]. now exists r.
      * intros [r H]. injection H as -> ->. split; [reflexivity | now exists r].
Qed.

Lemma str_in_spec (needle hay : string) :
  str_in needle hay = true <-> exists a b, hay = a ++ needle ++ b.
Proof.
  induction hay as [|c hay IH]; simpl; rewrite orb_true_iff, starts_with_spec.
  - split.
    + intros [[r H] | H]; [| discriminate]. now exists EmptyString, r.
    + intros [a [b H]]. left. destruct a; simpl in H; [now exists b | discriminate].
  - rewrite IH. split.
    + intros [[r H] | [a [b H]]].
      * now exists EmptyString, r.
      * exists (String c a), b. simpl. now rewrite H.
    + intros [a [b H]]. destruct a as [|x a]; simpl in H.
      * left. now exists b.
      * right. injection H as _ H. now exists a, b.
Qed.

Lemma map_chars_app (f : ascii -> ascii) (a b : string) :
  map_chars f (a ++ b) = map_chars f a ++ map_chars f b.
Proof. induction a as [|x a IH]; simpl; [reflexivity | now rewrite IH]. Qed.

Lemma map_chars_app_inv (f : ascii -> ascii) (s x y : string) :
  map_chars f s = x ++ y ->
  exists a b, s = a ++ b /\ map_chars f a = x /\ map_chars f b = y.
Proof.
  revert s; induction x as [|c x IH]; intros s H; simpl in H.
  - now exists EmptyString, s.
  - destruct s as [|d s]; simpl in H; [discriminate |].
    injection H as Hc H. destruct (IH _ H) as [a [b [-> [Ha Hb]]]].
    exists (String d a), b. simpl. now rewrite Hc, Ha.
Qed.

Lemma map_chars_compose (f g h : ascii -> ascii) (s : string) :
  (forall c, f (g c) = h c) -> map_chars f (map_chars g s) = map_chars h s.
Proof. intros E. induction s as [|x s IH]; simpl; [reflexivity | now rewrite E, IH]. Qed.

Lemma lower_upper_char (c : ascii) : lower_char (upper_char c) = lower_char c.
Proof. destruct c as [[] [] [] [] [] [] [] []]; reflexivity. Qed.

Lemma upper_lower_char (c : ascii) : upper_char (lower_char c) = upper_char c.
Proof. destruct c as [[] [] [] [] [] [] [] []]; reflexivity. Qed.

Lemma lower_upper (s : string) : ascii_lower (ascii_upper s) = ascii_lower s.
Proof. apply map_chars_compose, lower_upper_char. Qed.

Lemma upper_lower (s : string) : ascii_upper (ascii_lower s) = ascii_upper s.
Proof. apply map_chars_compose, upper_lower_char. Qed.

(** Equality up to case can be tested on the upper-cased strings as well. *)
Lemma ci_equal_upper (a b : string) :
  ci_equal a b <-> ascii_upper a = ascii_upper b.
Proof.
  unfold ci_equal. split; intros H.
  - now rewrite <- (upper_lower a), <- (upper_lower b), H.
  - now rewrite <- (lower_upper a), <- (lower_upper b), H.
Qed.

(** With the ASCII case map, [upper pat in upper s] is the case-insensitive
    occurrence of [pat]. *)
Lemma in_upper_ci (pat s : string) :
  str_in (ascii_upper pat) (ascii_upper s) = true <-> ci_substring pat s.
Proof.
  rewrite str_in_spec. unfold ci_substring. split.
  - intros [a [b H]]. unfold ascii_upper in H.
    apply map_chars_app_inv in H as [pre [rest [-> [_ H]]]].
    apply map_chars_app_inv in H as [w [post [-> [Hw _]]]].
    exists pre, w, post. split; [reflexivity | now apply ci_equal_upper].
  - intros [pre [w [post [-> Hw]]]]. apply ci_equal_upper in Hw.
    exists (ascii_upper pre), (ascii_upper post). unfold ascii_upper in *.
    now rewrite !map_chars_app, Hw.
Qed.

(** Likewise [lower pat in lower s]. *)
Lemma in_lower_ci (pat s : string) :
  str_in (ascii_lower pat) (ascii_lower s) = true <-> ci_substring pat s.
Proof.
  rewrite str_in_spec. unfold ci_substring, ci_equal. split.
  - intros [a [b H]]. unfold ascii_lower in H.
    apply map_chars_app_inv in H as [pre [rest [-> [_ H]]]].
    apply map_chars_app_inv in H as [w [post [-> [Hw _]]]].
    now exists pre, w, post.
  - intros [pre [w [post [-> Hw]]]].
    exists (ascii_lower pre), (ascii_lower post). unfold ascii_lower in *.
    now rewrite !map_chars_app, Hw.
Qed.

Lemma occurs_app (c : ascii) (a b : string) :
  occurs c (a ++ b) <-> occurs c a \/ occurs c b.
Proof. induction a as [|x a IH]; simpl; [tauto | rewrite IH; tauto]. Qed.

End StrFacts.

(* ===================================================================== *)
(** * Facts about the Unicode case maps *)
(* ===================================================================== *)

Module CaseFacts.
Import PyStr StrFacts.

Lemma is_ascii_lower_char (c : ascii) : is_ascii (lower_char c) = is_ascii c.
Proof. destruct c as [[] [] [] [] [] [] [] []]; reflexivity. Qed.

Lemma all_ascii_lower (s : string) : all_ascii (ascii_lower s) = all_ascii s.
Proof.
  unfold ascii_lower. induction s as [|c s IH]; [reflexivity |].
  cbn [map_chars all_ascii]. now rewrite is_ascii_lower_char, IH.
Qed.

(** On a string of ASCII characters a case map is the ASCII one. *)
Lemma mapped_all_ascii (f : ascii -> ascii) (ok : string -> Prop)
    (s t : string) :
  case_mapped f ok s t -> all_ascii s = true -> t = map_chars f s.
Proof.
  induction 1 as [|c s t A _ IH|c e s t A _ _ IH]; simpl; intros H.
  - reflexivity.
  - apply andb_true_iff in H as [_ H]. now rewrite (IH H).
  - rewrite A in H. discriminate.
Qed.

(** A case map works piece by piece. *)
Lemma mapped_split (f : ascii -> ascii) (ok : string -> Prop)
    (a b t : string) :
  case_mapped f ok (a ++ b) t ->
  exists ta tb,
    t = ta ++ tb /\ case_mapped f ok a ta /\ case_mapped f ok b tb.
Proof.
  revert t. induction a as [|c a IH]; simpl; intros t H.
  - exists EmptyString, t. repeat split; [constructor | exact H].
  - inversion H as [|c' s' t' A H'|c' e s' t' A O H']; subst.
    + destruct (IH _ H') as [ta [tb [-> [Ha Hb]]]].
      exists (String (f c) ta), tb. repeat split; [| exact Hb].
      now constructor.
    + destruct (IH _ H') as [ta [tb [-> [Ha Hb]]]].
      exists (e ++ ta), tb. rewrite app_assoc. repeat split; [| exact Hb].
      now constructor.
Qed.

Section Tables.

Context {U : Unicode}.

Lemma upper_of_ascii (s : string) :
  all_ascii s = true -> upper s = ascii_upper s.
Proof. apply mapped_all_ascii with (ok := fun _ => True), upper_law. Qed.

Lemma lower_of_ascii (s : string) :
  all_ascii s = true -> lower s = ascii_lower s.
Proof. apply mapped_all_ascii with (ok := foreign_lower), lower_law. Qed.

(** An ASCII pattern that occurs up to case occurs in the upper-cased
    text, whatever else the text holds. *)
Lemma ci_in_upper (pat s : string) :
  all_ascii pat = true -> ci_substring pat s ->
  str_in (ascii_upper pat) (upper s) = true.
Proof.
  intros A [pre [w [post [-> E]]]].
  assert (Aw : all_ascii w = true).
  { rewrite <- all_ascii_lower. unfold ci_equal in E. rewrite E.
    now rewrite all_ascii_lower. }
  destruct (mapped_split _ _ _ _ _ (upper_law (pre ++ w ++ post)))
    as [tpre [t [-> [_ H]]]].
  destruct (mapped_split _ _ _ _ _ H) as [tw [tpost [-> [Hw _]]]].
  apply mapped_all_ascii in Hw; [| exact Aw]. subst tw.
  apply ci_equal_upper in E. apply str_in_spec.
  exists tpre, tpost. now rewrite <- E.
Qed.

Lemma ci_in_lower (pat s : string) :
  all_ascii pat = true -> ci_substring pat s ->
  str_in (ascii_lower pat) (lower s) = true.
Proof.
  intros A [pre [w [post [-> E]]]].
  assert (Aw : all_ascii w = true).
  { rewrite <- all_ascii_lower. unfold ci_equal in E. rewrite E.
    now rewrite all_ascii_lower. }
  destruct (mapped_split _ _ _ _ _ (lower_law (pre ++ w ++ post)))
    as [tpre [t [-> [_ H]]]].
  destruct (mapped_split _ _ _ _ _ H) as [tw [tpost [-> [Hw _]]]].
  apply mapped_all_ascii in Hw; [| exact Aw]. subst tw.
  apply str_in_spec. exists tpre, tpost. now rewrite <- E.
Qed.

End Tables.

Lemma plain_cons (x : ascii) (n : string) :
  plain (String x n) = true ->
  is_lower x = true /\ x <> "i"%char /\ x <> "k"%char /\ plain n = true.
Proof.
  simpl. rewrite !andb_true_iff, !negb_true_iff, !Ascii.eqb_neq. tauto.
Qed.

(** A lower-cased character outside ASCII holds no plain letter. *)
Lemma foreign_has_no_plain (e : string) (x : ascii) (n : string) :
  foreign_lower e -> plain (String x n) = true -> ~ occurs x e.
Proof.
  intros [_ F] P O. apply plain_cons in P as [L [Ni [Nk _]]].
  destruct (F x O L); contradiction.
Qed.

(** A text that starts with plain letters was made from ASCII letters. *)
Lemma mapped_prefix_inv (n : string) :
  forall c t rest,
    case_mapped lower_char foreign_lower c t ->
    plain n = true -> t = n ++ rest ->
    exists w c', c = w ++ c' /\ ascii_lower w = n.
Proof.
  induction n as [|x n IH]; intros c t rest M P E.
  - now exists EmptyString, c.
  - destruct M as [|ch s0 t0 A M0|ch e s0 t0 A F M0].
    + discriminate.
    + simpl in E. injection E as Ex Et.
      apply plain_cons in P as [_ [_ [_ P]]].
      destruct (IH _ _ _ M0 P Et) as [w [c' [-> Hw]]].
      exists (String ch w), c'. split; [reflexivity |].
      unfold ascii_lower in *. cbn [map_chars]. now rewrite Ex, Hw.
    + exfalso. apply (foreign_has_no_plain e x n F P).
      destruct F as [Ne _]. destruct e as [|y e]; [contradiction |].
      simpl in E. injection E as -> _. now left.
Qed.

Lemma app_skip (e : string) :
  forall t a x m,
    e ++ t = a ++ String x m -> ~ occurs x e ->
    exists a', a = e ++ a' /\ t = a' ++ String x m.
Proof.
  induction e as [|y e IH]; simpl; intros t a x m E N.
  - now exists a.
  - destruct a as [|z a]; simpl in E; injection E as Ey E.
    + exfalso. apply N. now left.
    + destruct (IH _ _ _ _ E) as [a' [-> ->]]; [tauto |].
      exists a'. now rewrite Ey.
Qed.

(** An occurrence of plain letters in a lower-cased text comes from an
    occurrence, up to case, in the text itself. *)
Lemma mapped_occurrence_inv (c t : string) :
  case_mapped lower_char foreign_lower c t ->
  forall n a b,
    plain n = true -> n <> EmptyString -> t = a ++ n ++ b ->
    exists pre w post, c = pre ++ w ++ post /\ ascii_lower w = n.
Proof.
  induction 1 as [|ch s0 t0 A M0 IH|ch e s0 t0 A F M0 IH];
    intros n a b P Ne E.
  - destruct a; [destruct n; [contradiction | discriminate] | discriminate].
  - destruct a as [|y a]; simpl in E.
    + destruct (mapped_prefix_inv n (String ch s0) _ b
                  (mapped_ascii _ _ ch s0 t0 A M0) P E) as [w [c' [-> Hw]]].
      now exists EmptyString, w, c'.
    + injection E as _ E.
      destruct (IH _ _ _ P Ne E) as [pre [w [post [-> Hw]]]].
      now exists (String ch pre), w, post.
  - destruct n as [|x m]; [contradiction |].
    destruct (app_skip e t0 a x (m ++ b)) as [a' [-> E']];
      [exact E | now apply (foreign_has_no_plain e x m) |].
    destruct (IH _ _ _ P Ne E') as [pre [w [post [-> Hw]]]].
    now exists (String ch pre), w, post.
Qed.

(** For a pattern of plain letters, [pat in s.lower()] is the occurrence
    of [pat] up to case, in every text. *)
Lemma in_lower_plain {U : Unicode} (pat s : string) :
  plain pat = true -> pat <> EmptyString ->
  (str_in pat (lower s) = true <-> ci_substring pat s).
Proof.
  intros P Ne.
  assert (L : ascii_lower pat = pat).
  { clear Ne. unfold ascii_lower. induction pat as [|x n IH]; [reflexivity |].
    apply plain_cons in P as [Lx [_ [_ P]]]. cbn [map_chars].
    rewrite (IH P). f_equal.
    clear -Lx. destruct x as [[] [] [] [] [] [] [] []];
      try discriminate Lx; reflexivity. }
  assert (A : all_ascii pat = true).
  { clear Ne L. induction pat as [|x n IH]; [reflexivity |].
    apply plain_cons in P as [Lx [_ [_ P]]]. cbn [all_ascii].
    rewrite (IH P), andb_true_r.
    clear -Lx. destruct x as [[] [] [] [] [] [] [] []];
      try discriminate Lx; reflexivity. }
  split.
  - rewrite str_in_spec. intros [a [b E]].
    destruct (mapped_occurrence_inv _ _ (lower_law s) pat a b P Ne E)
      as [pre [w [post [-> Hw]]]].
    exists pre, w, post. split; [reflexivity |].
    unfold ci_equal. now rewrite L.
  - intros H. rewrite <- L. now apply ci_in_lower.
Qed.

End CaseFacts.

(* ===================================================================== *)
(** * Facts about the extraction pattern *)
(* ===================================================================== *)

Module RegexFacts.
Import PyStr Regex StrFacts.

Lemma greedy_none (s : string) :
  greedy_to_rbrace s = None <-> ~ occurs "}" s.
Proof.
  induction s as [|c s IH]; simpl; [tauto |].
  destruct (greedy_to_rbrace s) as [m|].
  - split; [discriminate |]. intros H. exfalso.
    assert (Hs : ~ occurs "}" s) by tauto. apply IH in Hs. discriminate.
  - destruct (Ascii.eqb_spec c "}") as [-> | Hc].
    + split; [discriminate | tauto].
    + split; [| reflexivity]. intros _ [H | H]; [contradiction |].
      now apply (proj1 IH).
Qed.

(** The greedy tail stops at the last closing brace. *)
Lemma greedy_some (s m : string) :
  greedy_to_rbrace s = Some m <->
  exists body post,
    s = body ++ "}" ++ post /\ ~ occurs "}" post /\ m = body ++ "}".
Proof.
  revert m; induction s as [|c s IH]; intros m; simpl.
  - split; [discriminate |]. intros [body [post [H _]]].
    destruct body; discriminate.
  - destruct (greedy_to_rbrace s) as [m'|] eqn:G.
    + split.
      * intros H; injection H as <-.
        destruct (proj1 (IH m') eq_refl) as [body [post [-> [Hp ->]]]].
        now exists (String c body), post.
      * intros [body [post [H [Hp ->]]]]. f_equal.
        destruct body as [|b body]; simpl in H; injection H as -> ->.
        -- apply greedy_none in Hp. congruence.
        -- simpl. f_equal.
           assert (E : Some m' = Some (body ++ "}")); [| now injection E].
           apply IH. now exists body, post.
    + pose proof (proj1 (greedy_none s) G) as Hs.
      destruct (Ascii.eqb_spec c "}") as [-> | Hc].
      * split.
        -- intros H; injection H as <-. now exists EmptyString, s.
        -- intros [body [post [H [Hp ->]]]].
           destruct body as [|b body]; simpl in H; [reflexivity |].
           injection H as _ ->.
           exfalso. apply Hs. rewrite occurs_app. simpl. tauto.
      * split; [discriminate |].
        intros [body [post [H [Hp ->]]]].
        destruct body as [|b body]; simpl in H; injection H as -> ->.
        -- congruence.
        -- exfalso. apply Hs. rewrite occurs_app. simpl. tauto.
Qed.

(** The match of [\{.*\}]: from the first opening brace that a closing one
    follows, to the last closing brace. *)
Lemma search_some (s m : string) :
  search_braces s = Some m <->
  exists pre body post,
    s = pre ++ "{" ++ body ++ "}" ++ post
    /\ ~ occurs "{" pre /\ ~ occurs "}" post
    /\ m = "{" ++ body ++ "}".
Proof.
  revert m; induction s as [|c s IH]; intros m; simpl.
  - split; [discriminate |]. intros [pre [body [post [H _]]]].
    destruct pre; discriminate.
  - destruct (Ascii.eqb_spec c "{") as [-> | Hc].
    + destruct (greedy_to_rbrace s) as [g|] eqn:G.
      * apply greedy_some in G as [body [post [-> [Hp ->]]]]. split.
        -- intros H; injection H as <-.
           exists EmptyString, body, post. simpl. tauto.
        -- intros [pre [body' [post' [H [Hpre [Hp' ->]]]]]].
           destruct pre as [|x pre]; simpl in H; injection H as H.
           ++ f_equal. simpl. f_equal.
              assert (E : greedy_to_rbrace (body ++ "}" ++ post)
                          = Some (body' ++ "}")).
              { apply greedy_some. now exists body', post'. }
              assert (E' : greedy_to_rbrace (body ++ "}" ++ post)
                           = Some (body ++ "}")).
              { apply greedy_some. now exists body, post. }
              congruence.
           ++ exfalso. apply Hpre. left. congruence.
      * pose proof (proj1 (greedy_none s) G) as Hs. rewrite IH. split.
        -- intros [pre [body [post [-> [Hpre [Hp ->]]]]]]. exfalso.
           apply Hs. rewrite !occurs_app. simpl. tauto.
        -- intros [pre [body [post [H [Hpre [Hp ->]]]]]]. exfalso.
           destruct pre as [|x pre]; simpl in H; injection H as H.
           ++ subst s. apply Hs. rewrite !occurs_app. simpl. tauto.
           ++ apply Hpre. left. congruence.
    + rewrite IH. split.
      * intros [pre [body [post [-> [Hpre [Hp ->]]]]]].
        exists (String c pre), body, post. simpl.
        split; [reflexivity |]. split; [| tauto].
        intros [E | E]; [congruence | tauto].
      * intros [pre [body [post [H [Hpre [Hp ->]]]]]].
        destruct pre as [|x pre]; simpl in H; injection H as -> H.
        -- congruence.
        -- exists pre, body, post. simpl in Hpre. tauto.
Qed.

(** No match exactly when no opening brace has a closing brace after it. *)
Lemma search_none (s : string) :
  search_braces s = None <->
  (forall a b c, s <> a ++ "{" ++ b ++ "}" ++ c).
Proof.
  induction s as [|x s IH]; simpl.
  - split; [| reflexivity]. intros _ a b c H. destruct a; discriminate.
  - destruct (Ascii.eqb_spec x "{") as [-> | Hx].
    + destruct (greedy_to_rbrace s) as [g|] eqn:G.
      * split; [discriminate |]. intros H. exfalso.
        apply greedy_some in G as [body [post [-> _]]].
        now apply (H EmptyString body post).
      * pose proof (proj1 (greedy_none s) G) as Hs.
        split; [| intros _; apply IH; intros a b c ->; apply Hs;
                  rewrite !occurs_app; simpl; tauto ].
        intros _ a b c H. apply Hs.
        destruct a as [|y a]; simpl in H; inversion H; subst;
          rewrite ?occurs_app; simpl; rewrite ?occurs_app; simpl; tauto.
    + rewrite IH. split.
      * intros H a b c E. destruct a as [|y a]; simpl in E; injection E as E1 E2.
        -- congruence.
        -- now apply (H a b c).
      * intros H a b c E. apply (H (String x a) b c). simpl. now rewrite E.
Qed.

End RegexFacts.

(* ===================================================================== *)
(** * The parser: extraction, rejection, fallback *)
(* ===================================================================== *)

Section ParserFacts.

Context {U : PyStr.Unicode}.
Variable json_loads : string -> exc pyval.
Variable repr : pyval -> string.
Variable self : ImageAnalysisService.

Local Abbreviation parse := (_parse_llm_analysis json_loads repr self).
Local Abbreviation body := (parse_body json_loads repr self).

(** A body that returns is passed through: nothing is logged. *)
Lemma parse_of_ok (content : pyval) (r : pydict) (log : list log_record) :
  body content = Ok r -> parse content log = (Ok r, log).
Proof.
  intros H. unfold _parse_llm_analysis, try_except, lift. now rewrite H.
Qed.

(** A body that raises is logged and answered by the fallback. *)
Lemma parse_of_raise (content : pyval) (e : exn) (log : list log_record) :
  body content = Raise e ->
  parse content log
  = (Ok _get_fallback_analysis, (log ++ [ErrorJsonParse e])%list).
Proof.
  intros H. unfold _parse_llm_analysis, try_except, lift. now rewrite H.
Qed.

(** The parser always returns, and adds at most one record to the log. *)
Lemma parse_returns (content : pyval) (log : list log_record) :
  exists r extra, parse content log = (Ok r, (log ++ extra)%list).
Proof.
  destruct (body content) as [r | e] eqn:B.
  - exists r, []. rewrite (parse_of_ok _ _ _ B). now rewrite List.app_nil_r.
  - exists _get_fallback_analysis, [ErrorJsonParse e].
    apply (parse_of_raise _ _ _ B).
Qed.

(** An accepted parse is what the parser returns. *)
Lemma accepted_body (content data : pyval) (r : pydict) :
  accepted json_loads repr self content data r -> body content = Ok r.
Proof.
  intros [E [G A]]. unfold parse_body. rewrite E. simpl. rewrite G. exact A.
Qed.

Lemma accepted_parse (content data : pyval) (r : pydict)
    (log : list log_record) :
  accepted json_loads repr self content data r ->
  parse content log = (Ok r, log).
Proof. intros H. apply parse_of_ok. now apply accepted_body with data. Qed.

(** The candidate handed to the decoder is the match of the pattern. *)
Lemma extract_of_match (s m : string) :
  Regex.search_braces s = Some m ->
  extract_json json_loads (PStr s) = json_loads m.
Proof. intros H. unfold extract_json. simpl. now rewrite H. Qed.

(** The gate on a decoded object, case by case. *)
Lemma rejects_dict (items : pydict) :
  rejects (PDict items)
  = if negb (Py.truthy (Py.field items "is_agricultural" (PBool false)))
    then Ok true
    else Py.lt_40 (Py.field items "confidence_score" (PInt 100)).
Proof. reflexivity. Qed.

(** C1. Strict rejection gate: when a JSON object is extracted and decoded
    and its [is_agricultural] is absent or false, or its
    [confidence_score] (100 when absent) is below 40, the parser returns
    the Non-Agricultural Result, whose [natural_summary] is the object's
    [natural_response] when present and the fixed apology otherwise,
    whatever the other fields hold. *)
Theorem strict_rejection_gate (content : pyval) (items : pydict)
    (log : list log_record) :
  extract_json json_loads content = Ok (PDict items) ->
  Py.assoc "is_agricultural" items = None
  \/ Py.assoc "is_agricultural" items = Some (PBool false)
  \/ Py.lt_40 (Py.field items "confidence_score" (PInt 100)) = Ok true ->
  parse content log
  = (Ok [ ("plant_type", PStr "Non-Agricultural Object");
          ("pest_detected", PBool false);
          ("disease_detected", PBool false);
          ("health_status", PStr "Not Agricultural");
          ("severity", PStr "None");
          ("recommendations",
           PList [PStr "Please upload a clear photo of a crop, plant, or pest."]);
          ("sources", PList []);
          ("natural_summary",
           match Py.assoc "natural_response" items with
           | Some text => text
           | None =>
               PStr "I'm sorry, I couldn't recognize a plant or crop in this image."
           end) ],
     log).
Proof.
  intros E H. apply parse_of_ok. unfold parse_body. rewrite E. simpl bind.
  assert (G : rejects (PDict items) = Ok true).
  { rewrite rejects_dict. unfold Py.field at 1.
    destruct H as [H | [H | H]]; try (rewrite H; reflexivity).
    destruct (negb _); [reflexivity | exact H]. }
  rewrite G. reflexivity.
Qed.

(** C3. JSON extraction: the candidate is the substring from the first
    opening brace to the last closing brace, and it is what the decoder
    receives; a text with no opening brace followed by a closing one, and
    a candidate that does not decode, both give the fallback result. *)
Theorem json_extraction (s : string) (log : list log_record) :
  (forall m,
      Regex.search_braces s = Some m <->
      exists pre inner post,
        s = pre ++ "{" ++ inner ++ "}" ++ post
        /\ ~ PyStr.occurs "{" pre /\ ~ PyStr.occurs "}" post
        /\ m = "{" ++ inner ++ "}")
  /\ (forall m, Regex.search_braces s = Some m ->
                extract_json json_loads (PStr s) = json_loads m)
  /\ ((forall a b c, s <> a ++ "{" ++ b ++ "}" ++ c) ->
      fst (parse (PStr s) log) = Ok _get_fallback_analysis)
  /\ (forall m e, Regex.search_braces s = Some m ->
                  json_loads m = Raise e ->
                  fst (parse (PStr s) log) = Ok _get_fallback_analysis).
Proof.
  split; [intros m; apply RegexFacts.search_some |].
  split; [intros m; apply extract_of_match |]. split.
  - intros H. apply RegexFacts.search_none in H.
    rewrite (parse_of_raise _ (ValueError "No valid JSON found in response"));
      [reflexivity |].
    unfold parse_body, extract_json. simpl. now rewrite H.
  - intros m e H D. rewrite (parse_of_raise _ e); [reflexivity |].
    unfold parse_body. now rewrite (extract_of_match _ _ H), D.
Qed.

(** The result of the parser is a function of the two tables only. *)
Lemma body_reads_tables (other : ImageAnalysisService) (content : pyval) :
  pest_database self = pest_database other ->
  disease_database self = disease_database other ->
  body content = parse_body json_loads repr other content.
Proof.
  intros P D. unfold parse_body, agricultural_result. now rewrite P, D.
Qed.

End ParserFacts.

(** C6. Determinism of the parser: its result is a function of the raw text
    and of the two tables of the knowledge base, and of nothing else: not of
    the state of the log, not of the configuration of the service.  Two
    invocations on the same text, whatever was logged in between, return the
    same result. *)
Theorem parser_deterministic {U : PyStr.Unicode}
    (json_loads : string -> exc pyval)
    (repr : pyval -> string) (self self' : ImageAnalysisService)
    (content : pyval) (log log' : list log_record) :
  pest_database self = pest_database self' ->
  disease_database self = disease_database self' ->
  fst (_parse_llm_analysis json_loads repr self content log)
  = fst (_parse_llm_analysis json_loads repr self' content log').
Proof.
  intros P D. unfold _parse_llm_analysis, try_except, lift.
  rewrite (body_reads_tables json_loads repr self self' content P D).
  now destruct (parse_body json_loads repr self' content).
Qed.

(* ===================================================================== *)
(** * The entry point *)
(* ===================================================================== *)

Section AnalyzeFacts.

Context {U : PyStr.Unicode}.
Variable json_loads : string -> exc pyval.
Variable repr : pyval -> string.
Variable ollama_chat : string -> list message -> outcome pyval.
Variable self : ImageAnalysisService.
Variable image_data : list Byte.byte.
Variables filename context : string.

Local Abbreviation analyze :=
  (analyze_image json_loads repr ollama_chat self image_data filename
     context).
Local Abbreviation call :=
  (ollama_chat (ollama_vision_model self)
     [ {| role := "user";
          content := build_prompt context;
          images := [image_data] |} ]).
Local Abbreviation content_of response :=
  (message <- Py.getitem response "message" ;; Py.getitem message "content").

(** The four ways through [analyze_image]. *)
Lemma analyze_cases (log : list log_record) :
  let log1 := (log ++ [InfoAnalyzing filename (ollama_vision_model self)])%list in
  analyze log
  = match call with
    | Escapes b => (Escapes b, log1)
    | Raises e =>
        (Returns _get_fallback_analysis,
         (log1 ++ [ErrorAnalysisFailed e])%list)
    | Returns response =>
        match content_of response with
        | Raise e =>
            (Returns _get_fallback_analysis,
             (log1 ++ [ErrorAnalysisFailed e])%list)
        | Ok text =>
            of_logged (_parse_llm_analysis json_loads repr self text)
              (log1 ++ [InfoRawResponse text])%list
        end
    end.
Proof.
  unfold analyze_image, try_except_exception, bindI, of_logged, called, emit,
    lift, ret.
  simpl.
  destruct call as [response | e | b]; [| reflexivity | reflexivity].
  destruct (content_of response) as [text | e]; [| reflexivity].
  destruct (parse_returns json_loads repr self text
              ((log ++ [InfoAnalyzing filename (ollama_vision_model self)])
                 ++ [InfoRawResponse text])%list) as [r [extra H]].
  now rewrite H.
Qed.


End AnalyzeFacts.

(* ===================================================================== *)
(** * The agricultural branch *)
(* ===================================================================== *)

Section MatchingFacts.

Context {U : PyStr.Unicode}.
Variable content_upper : string.

Lemma wins_first_match (table : database) (o : option KnowledgeRecord) :
  wins content_upper table o <-> first_match table content_upper = o.
Proof.
  split.
  - intros W. destruct W as [table N | before after key info N M].
    + induction table as [|[k i] rest IH]; simpl; [reflexivity |].
      rewrite (N k i (or_introl eq_refl)). apply IH.
      intros k' i' H. apply N. now right.
    + induction before as [|[k i] before IH]; simpl.
      * now rewrite M.
      * rewrite (N k i (or_introl eq_refl)). apply IH.
        intros k' i' H. apply N. now right.
  - revert o. induction table as [|[k i] rest IH]; simpl; intros o H.
    + subst o. now constructor.
    + destruct (record_matches k i content_upper) eqn:M.
      * subst o. apply (wins_first content_upper [] rest k i); [| exact M].
        intros k' i' [].
      * specialize (IH o H). destruct IH as [rest N | before after key info N M'].
        -- constructor. intros k' i' [E | E]; [now injection E as <- <- | auto].
        -- apply (wins_first content_upper ((k, i) :: before) after key info);
             [| exact M'].
           intros k' i' [E | E]; [now injection E as <- <- | eauto].
Qed.

(** The loop returns the first match of the table, if it returns. *)
Lemma match_loop_first (table : database) (vars vars' : locals)
    (o : option KnowledgeRecord) :
  match_loop table content_upper vars = Ok (o, vars') ->
  first_match table content_upper = o.
Proof.
  induction table as [|[k i] rest IH]; simpl; intros H.
  - now injection H as <- _.
  - destruct (record_matches k i content_upper); [| now apply IH].
    destruct (Py.len (natural_summary vars)) as [n|]; [| discriminate].
    simpl in H.
    destruct (if (n <? 50)%nat then _ else _); [| discriminate].
    now injection H as <- _.
Qed.

(** Without a match the loop assigns nothing. *)
Lemma match_loop_none (table : database) (vars vars' : locals) :
  match_loop table content_upper vars = Ok (None, vars') -> vars' = vars.
Proof.
  induction table as [|[k i] rest IH]; simpl; intros H.
  - now injection H as <-.
  - destruct (record_matches k i content_upper); [| now apply IH].
    destruct (Py.len (natural_summary vars)) as [n|]; [| discriminate].
    simpl in H.
    destruct (if (n <? 50)%nat then _ else _); discriminate.
Qed.

(** On a match the loop takes the record's control methods, and extends
    a summary of fewer than 50 characters. *)
Lemma match_loop_some (table : database) (vars vars' : locals)
    (info : KnowledgeRecord) :
  match_loop table content_upper vars = Ok (Some info, vars') ->
  recommendations vars' = control_methods info
  /\ exists n,
       Py.len (natural_summary vars) = Ok n
       /\ (if (n <? 50)%nat
           then Py.iadd_str (natural_summary vars) (resembles info)
           else Ok (natural_summary vars))
          = Ok (natural_summary vars').
Proof.
  induction table as [|[k i] rest IH]; simpl; intros H; [discriminate |].
  destruct (record_matches k i content_upper); [| now apply IH].
  destruct (Py.len (natural_summary vars)) as [n|]; [| discriminate].
  simpl in H.
  destruct (if (n <? 50)%nat then _ else _) as [s|] eqn:A; [| discriminate].
  injection H as <- <-. simpl. split; [reflexivity |]. now exists n.
Qed.

(** On a summary that is a string the loop cannot raise, and the summary
    stays a string. *)
Lemma match_loop_returns (table : database) (recs : list string)
    (text : string) :
  exists o recs' text',
    match_loop table content_upper
      {| recommendations := recs; natural_summary := PStr text |}
    = Ok (o, {| recommendations := recs'; natural_summary := PStr text' |}).
Proof.
  induction table as [|[k i] rest IH]; simpl.
  - now exists None, recs, text.
  - destruct (record_matches k i content_upper); [| exact IH].
    destruct (String.length text <? 50)%nat; simpl; eauto.
Qed.

End MatchingFacts.

Section AgriculturalFacts.

Context {U : PyStr.Unicode}.
Variable json_loads : string -> exc pyval.
Variable repr : pyval -> string.
Variable self : ImageAnalysisService.

Local Abbreviation plant_of items :=
  (Py.field items "plant_name" (PStr "Unknown Crop")).
Local Abbreviation issue_of items :=
  (PyStr.upper (Py.str repr (Py.field items "detected_issue" (PStr EmptyString)))).
Local Abbreviation response_of items :=
  (Py.field items "natural_response" (PStr EmptyString)).
Local Abbreviation is_accepted :=
  (accepted json_loads repr self).

(** What a completed agricultural branch went through. *)
Lemma agricultural_inv (data : pyval) (r : pydict) :
  agricultural_result repr self data = Ok r ->
  exists items c pm v1 dm v2 v3,
    let pd := PyStr.str_in "PEST" (PyStr.upper c) in
    let dd := PyStr.str_in "DISEASE" (PyStr.upper c) in
    let v0 := {| recommendations := monitor_default;
                 natural_summary := response_of items |} in
    data = PDict items
    /\ Py.field items "condition" (PStr "Unknown") = PStr c
    /\ (if pd then match_loop (pest_database self) (issue_of items) v0
        else Ok (None, v0)) = Ok (pm, v1)
    /\ (if dd then match_loop (disease_database self) (issue_of items) v1
        else Ok (None, v1)) = Ok (dm, v2)
    /\ (if negb pd && negb dd
        then healthy_branch repr (plant_of items) (PStr c) v2
        else Ok v2) = Ok v3
    /\ r = [ ("plant_type", plant_of items);
             ("pest_detected", PBool pd);
             ("disease_detected", PBool dd);
             ("health_status", PStr c);
             ("severity", PStr (if pd || dd then "Moderate" else "None"));
             ("pest_info", optional_record pm);
             ("disease_info", optional_record dm);
             ("recommendations", str_list (recommendations v3));
             ("sources", PList []);
             ("natural_summary", natural_summary v3) ].
Proof.
  unfold agricultural_result. intros H.
  destruct data as [| | | | |l|items]; try discriminate. simpl in H.
  destruct (Py.field items "condition" (PStr "Unknown")) as [| | | |c| |] eqn:C;
    try discriminate.
  simpl in H.
  destruct (if PyStr.str_in "PEST" (PyStr.upper c) then _ else _)
    as [[pm v1]|] eqn:L1; [| discriminate].
  simpl in H.
  destruct (if PyStr.str_in "DISEASE" (PyStr.upper c) then _ else _)
    as [[dm v2]|] eqn:L2; [| discriminate].
  simpl in H.
  destruct (if negb _ && negb _ then _ else _) as [v3|] eqn:L3;
    [| discriminate].
  simpl in H. injection H as <-.
  exists items, c, pm, v1, dm, v2, v3. cbv zeta.
  repeat split; assumption.
Qed.

(** The branch completes whenever [condition] and [natural_response] are
    strings (or absent): accepted parses exist for every such object. *)
Lemma agricultural_returns (items : pydict) (condition text : string) :
  Py.field items "condition" (PStr "Unknown") = PStr condition ->
  response_of items = PStr text ->
  exists r, agricultural_result repr self (PDict items) = Ok r.
Proof.
  intros C T. unfold agricultural_result. simpl. rewrite C, T. simpl.
  fold monitor_default. set (cu := issue_of items).
  destruct (PyStr.str_in "PEST" (PyStr.upper condition)) eqn:P;
    destruct (PyStr.str_in "DISEASE" (PyStr.upper condition)) eqn:D.
  - destruct (match_loop_returns cu (pest_database self) monitor_default text)
      as [o1 [r1 [t1 ->]]]. simpl.
    destruct (match_loop_returns cu (disease_database self) r1 t1)
      as [o2 [r2 [t2 ->]]]. simpl. eauto.
  - destruct (match_loop_returns cu (pest_database self) monitor_default text)
      as [o1 [r1 [t1 ->]]]. simpl. eauto.
  - simpl.
    destruct (match_loop_returns cu (disease_database self) monitor_default text)
      as [o2 [r2 [t2 ->]]]. simpl. eauto.
  - simpl. unfold healthy_branch. simpl.
    destruct (PyStr.str_in "healthy" (PyStr.lower condition)); simpl; eauto.
Qed.

(** C9. health_status passthrough: the returned [health_status] is the
    [condition] of the decoded object, verbatim, and ["Unknown"] when the
    object has no [condition]. *)
Theorem health_status_passthrough (content data : pyval) (r : pydict) :
  is_accepted content data r ->
  exists items,
    data = PDict items
    /\ Py.assoc "health_status" r
       = Some match Py.assoc "condition" items with
              | Some condition => condition
              | None => PStr "Unknown"
              end.
Proof.
  intros [_ [_ A]].
  destruct (agricultural_inv _ _ A)
    as [items [c [pm [v1 [dm [v2 [v3 [-> [C [_ [_ [_ ->]]]]]]]]]]]].
  exists items. split; [reflexivity |]. simpl. now rewrite <- C.
Qed.

(** C7. Severity: on an accepted agricultural parse the severity is
    ["Moderate"] when a detection flag is set and ["None"] otherwise. *)
Theorem severity_from_flags (content data : pyval) (r : pydict) :
  is_accepted content data r ->
  exists pest_detected disease_detected,
    Py.assoc "pest_detected" r = Some (PBool pest_detected)
    /\ Py.assoc "disease_detected" r = Some (PBool disease_detected)
    /\ Py.assoc "severity" r
       = Some (PStr (if pest_detected || disease_detected
                     then "Moderate" else "None")).
Proof.
  intros [_ [_ A]].
  destruct (agricultural_inv _ _ A)
    as [items [c [pm [v1 [dm [v2 [v3 [_ [_ [_ [_ [_ ->]]]]]]]]]]]].
  now exists (PyStr.str_in "PEST" (PyStr.upper c)),
             (PyStr.str_in "DISEASE" (PyStr.upper c)).
Qed.

(** C5, as the code has it. Detection flags: [pest_detected] holds exactly
    when ["PEST"] occurs in [condition.upper()], [disease_detected] exactly
    when ["DISEASE"] does.  That is the case whenever the word occurs in
    [condition] up to the case of its letters, and for a [condition] of
    ASCII characters only then; a character outside ASCII may upper-case
    into a letter of the word.  The tests are independent, and the
    condition ["Pest and Disease Detected"] sets both. *)
Theorem detection_flags (content data : pyval) (r : pydict) :
  is_accepted content data r ->
  exists condition pest_detected disease_detected,
    Py.get data "condition" (PStr "Unknown") = Ok (PStr condition)
    /\ Py.assoc "pest_detected" r = Some (PBool pest_detected)
    /\ Py.assoc "disease_detected" r = Some (PBool disease_detected)
    /\ pest_detected = PyStr.str_in "PEST" (PyStr.upper condition)
    /\ disease_detected = PyStr.str_in "DISEASE" (PyStr.upper condition)
    /\ (ci_substring "PEST" condition -> pest_detected = true)
    /\ (ci_substring "DISEASE" condition -> disease_detected = true)
    /\ (PyStr.all_ascii condition = true ->
        (pest_detected = true -> ci_substring "PEST" condition)
        /\ (disease_detected = true -> ci_substring "DISEASE" condition))
    /\ (condition = "Pest and Disease Detected" ->
        pest_detected = true /\ disease_detected = true).
Proof.
  intros [_ [_ A]].
  destruct (agricultural_inv _ _ A)
    as [items [c [pm [v1 [dm [v2 [v3 [-> [C [_ [_ [_ ->]]]]]]]]]]]].
  exists c, (PyStr.str_in "PEST" (PyStr.upper c)),
         (PyStr.str_in "DISEASE" (PyStr.upper c)).
  simpl Py.get. rewrite C.
  split; [reflexivity |]. split; [reflexivity |]. split; [reflexivity |].
  split; [reflexivity |]. split; [reflexivity |].
  split; [apply (CaseFacts.ci_in_upper "PEST"); reflexivity |].
  split; [apply (CaseFacts.ci_in_upper "DISEASE"); reflexivity |].
  split.
  - intros Asc. rewrite (CaseFacts.upper_of_ascii c Asc).
    split; [apply (StrFacts.in_upper_ci "PEST")
           | apply (StrFacts.in_upper_ci "DISEASE")].
  - intros ->.
    split; [apply (CaseFacts.ci_in_upper "PEST")
           | apply (CaseFacts.ci_in_upper "DISEASE")];
      try reflexivity.
    + apply (StrFacts.in_upper_ci "PEST"). reflexivity.
    + apply (StrFacts.in_upper_ci "DISEASE"). reflexivity.
Qed.

(** The flags of a completed branch, read back from the result. *)
Lemma flag_inj (b b' : bool) : Some (PBool b) = Some (PBool b') -> b = b'.
Proof. now intros H; injection H. Qed.

(** C8. Healthy branch: with neither flag set the recommendations are the
    good-practice default, the severity is ["None"], and when [condition]
    contains ["healthy"] case-insensitively and the summary has fewer than
    10 characters, the summary becomes the sentence that names
    [plant_type]; otherwise the summary is the model's own. *)
Theorem healthy_branch_default (content data : pyval) (r : pydict) :
  is_accepted content data r ->
  Py.assoc "pest_detected" r = Some (PBool false) ->
  Py.assoc "disease_detected" r = Some (PBool false) ->
  exists items condition,
    data = PDict items
    /\ Py.field items "condition" (PStr "Unknown") = PStr condition
    /\ Py.assoc "recommendations" r
       = Some (PList [PStr "Continue Good Agricultural Practices (GAP).";
                      PStr "Regular monitoring."])
    /\ Py.assoc "severity" r = Some (PStr "None")
    /\ (ci_substring "healthy" condition ->
        exists n,
          Py.len (response_of items) = Ok n
          /\ Py.assoc "natural_summary" r
             = Some (if (n <? 10)%nat
                     then PStr ("The " ++ Py.str repr (plant_of items)
                                ++ " looks healthy. Keep up the good work!")
                     else response_of items))
    /\ (~ ci_substring "healthy" condition ->
        Py.assoc "natural_summary" r = Some (response_of items)).
Proof.
  intros [_ [_ A]] P D.
  destruct (agricultural_inv _ _ A)
    as [items [c [pm [v1 [dm [v2 [v3 [-> [C [L1 [L2 [L3 ->]]]]]]]]]]]].
  cbv zeta in *. simpl in P, D. apply flag_inj in P, D.
  rewrite P in *. rewrite D in *. simpl in L1, L2, L3 |- *.
  injection L1 as <- <-. injection L2 as <- <-.
  exists items, c. split; [reflexivity |]. split; [exact C |].
  unfold healthy_branch in L3. simpl in L3.
  assert (Hci : PyStr.str_in "healthy" (PyStr.lower c) = true
                <-> ci_substring "healthy" c).
  { apply CaseFacts.in_lower_plain; [reflexivity | discriminate]. }
  destruct (PyStr.str_in "healthy" (PyStr.lower c)).
  - destruct (Py.len (response_of items)) as [n|] eqn:N; [| discriminate].
    simpl in L3. injection L3 as <-. simpl.
    split; [reflexivity |]. split; [reflexivity |]. split.
    + intros _. now exists n.
    + intros H. exfalso. apply H, Hci. reflexivity.
  - simpl in L3. injection L3 as <-. simpl.
    split; [reflexivity |]. split; [reflexivity |]. split.
    + intros H. apply Hci in H. discriminate.
    + reflexivity.
Qed.

(** C10. A disease match overwrites the recommendations of a pest match:
    with both flags set and a match in both tables, the recommendations
    are the disease record's control methods, both info fields hold
    their records, and the disease sentence is appended only when the
    summary, after the pest sentence was or was not appended, still has
    fewer than 50 characters. *)
Theorem disease_match_overwrites (content : pyval) (items r : pydict)
    (pest disease : KnowledgeRecord) :
  is_accepted content (PDict items) r ->
  Py.assoc "pest_detected" r = Some (PBool true) ->
  Py.assoc "disease_detected" r = Some (PBool true) ->
  wins (issue_of items) (pest_database self) (Some pest) ->
  wins (issue_of items) (disease_database self) (Some disease) ->
  Py.assoc "recommendations" r = Some (str_list (control_methods disease))
  /\ Py.assoc "pest_info" r = Some (record_value pest)
  /\ Py.assoc "disease_info" r = Some (record_value disease)
  /\ (exists n1 after_pest n2 summary,
        Py.len (response_of items) = Ok n1
        /\ (if (n1 <? 50)%nat
            then Py.iadd_str (response_of items)
                   (" This resembles " ++ local_name pest ++ ".")
            else Ok (response_of items)) = Ok after_pest
        /\ Py.len after_pest = Ok n2
        /\ (if (n2 <? 50)%nat
            then Py.iadd_str after_pest
                   (" This resembles " ++ local_name disease ++ ".")
            else Ok after_pest) = Ok summary
        /\ Py.assoc "natural_summary" r = Some summary)
  /\ (forall text,
        response_of items = PStr text ->
        let after_pest :=
          if (String.length text <? 50)%nat
          then text ++ " This resembles " ++ local_name pest ++ "."
          else text in
        Py.assoc "natural_summary" r
        = Some (PStr (if (String.length after_pest <? 50)%nat
                      then after_pest ++ " This resembles "
                           ++ local_name disease ++ "."
                      else after_pest))).
Proof.
  intros [_ [_ A]] P D Wp Wd.
  destruct (agricultural_inv _ _ A)
    as [items' [c [pm [v1 [dm [v2 [v3 [E [C [L1 [L2 [L3 ->]]]]]]]]]]]].
  injection E as <-. cbv zeta in *. simpl in P, D. apply flag_inj in P, D.
  rewrite P in *. rewrite D in *. simpl in L3. injection L3 as <-.
  apply wins_first_match in Wp, Wd.
  pose proof (match_loop_first _ _ _ _ _ L1) as F1.
  pose proof (match_loop_first _ _ _ _ _ L2) as F2.
  rewrite Wp in F1. rewrite Wd in F2. subst pm dm.
  destruct (match_loop_some _ _ _ _ _ L1) as [_ [n1 [N1 S1]]].
  destruct (match_loop_some _ _ _ _ _ L2) as [R2 [n2 [N2 S2]]].
  simpl in N1, S1. unfold resembles in S1, S2.
  simpl Py.assoc. rewrite R2.
  split; [reflexivity |]. split; [reflexivity |]. split; [reflexivity |].
  split.
  - exists n1, (natural_summary v1), n2, (natural_summary v2). auto.
  - intros text T. cbv zeta. rewrite T in N1, S1. simpl in N1.
    injection N1 as <-.
    assert (E1 : natural_summary v1
                 = PStr (if (String.length text <? 50)%nat
                         then text ++ " This resembles " ++ local_name pest ++ "."
                         else text)).
    { destruct (String.length text <? 50)%nat; simpl in S1;
        now injection S1 as <-. }
    rewrite E1 in N2, S2. simpl in N2. injection N2 as <-.
    destruct (String.length _ <? 50)%nat in S2 |- *; simpl in S2;
      now injection S2 as <-.
Qed.

(** C4, as the code has it. Knowledge base matching: for each flag that
    is set, its table is searched in insertion order and the first record
    whose spaced upper-cased identifier or upper-cased local name occurs
    in the upper-cased issue becomes the info field; without a match, or
    without the flag, the info field stays absent.  The recommendations
    are the control methods of the disease match when there is one, else
    those of the pest match when there is one, and stay at the generic
    default only when no flagged table has a match. *)
Theorem knowledge_base_matching (content : pyval) (items r : pydict)
    (pest_detected disease_detected : bool) :
  is_accepted content (PDict items) r ->
  Py.assoc "pest_detected" r = Some (PBool pest_detected) ->
  Py.assoc "disease_detected" r = Some (PBool disease_detected) ->
  exists pest disease,
    (if pest_detected
     then wins (issue_of items) (pest_database self) pest
     else pest = None)
    /\ (if disease_detected
        then wins (issue_of items) (disease_database self) disease
        else disease = None)
    /\ Py.assoc "pest_info" r = Some (optional_record pest)
    /\ Py.assoc "disease_info" r = Some (optional_record disease)
    /\ (pest_detected || disease_detected = true ->
        Py.assoc "recommendations" r
        = Some (str_list
                  match disease, pest with
                  | Some d, _ => control_methods d
                  | None, Some p => control_methods p
                  | None, None => ["Monitor the crop closely.";
                                   "Consult your local technician."]
                  end)).
Proof.
  intros [_ [_ A]] P D.
  destruct (agricultural_inv _ _ A)
    as [items' [c [pm [v1 [dm [v2 [v3 [E [C [L1 [L2 [L3 ->]]]]]]]]]]]].
  injection E as <-. cbv zeta in *. simpl in P, D. apply flag_inj in P, D.
  rewrite P in *. rewrite D in *. clear P D.
  exists pm, dm. simpl Py.assoc.
  assert (W1 : if pest_detected
               then wins (issue_of items) (pest_database self) pm
               else pm = None).
  { destruct pest_detected.
    - apply wins_first_match. now apply match_loop_first in L1.
    - now injection L1 as <- _. }
  assert (W2 : if disease_detected
               then wins (issue_of items) (disease_database self) dm
               else dm = None).
  { destruct disease_detected.
    - apply wins_first_match. now apply match_loop_first in L2.
    - now injection L2 as <- _. }
  split; [exact W1 |]. split; [exact W2 |].
  split; [reflexivity |]. split; [reflexivity |].
  intros F. f_equal. f_equal.
  assert (E3 : v3 = v2).
  { destruct pest_detected, disease_detected; simpl in L3, F;
      try discriminate; now injection L3. }
  subst v3.
  assert (R1 : recommendations v1
               = match pm with
                 | Some p => control_methods p
                 | None => monitor_default
                 end).
  { destruct pest_detected.
    - destruct pm as [p|].
      + now apply match_loop_some in L1 as [R _].
      + now apply match_loop_none in L1 as ->.
    - now injection L1 as <- <-. }
  destruct disease_detected.
  - destruct dm as [d|].
    + now apply match_loop_some in L2 as [R _].
    + apply match_loop_none in L2 as ->. rewrite R1. now destruct pm.
  - injection L2 as <- <-. rewrite R1. now destruct pm.
Qed.

End AgriculturalFacts.

(* ===================================================================== *)
(** * The scenarios of the specification, run through the theorems *)
(* ===================================================================== *)

Section Scenarios.

#[local] Existing Instance UnicodeSample.tables.

(** Scenario 4: confidence 20 overrides [is_agricultural = true]. *)
Lemma strict_rejection_gate_witness :
  _parse_llm_analysis JsonRef.loads JsonRef.repr image_analysis_service
    (PStr scenario_4) []
  = (Ok [ ("plant_type", PStr "Non-Agricultural Object");
          ("pest_detected", PBool false);
          ("disease_detected", PBool false);
          ("health_status", PStr "Not Agricultural");
          ("severity", PStr "None");
          ("recommendations",
           PList [PStr "Please upload a clear photo of a crop, plant, or pest."]);
          ("sources", PList []);
          ("natural_summary",
           PStr "I'm sorry, I couldn't recognize a plant or crop in this image.") ],
     []).
Proof.
  apply (strict_rejection_gate JsonRef.loads JsonRef.repr
           image_analysis_service (PStr scenario_4)
           [ ("is_agricultural", PBool true);
             ("confidence_score", PInt 20);
             ("plant_name", PStr "Corn") ] []).
  - run.
  - right. right. run.
Defined.



(** Scenario 3: no braces at all. *)
Lemma json_extraction_witness :
  fst (_parse_llm_analysis JsonRef.loads JsonRef.repr image_analysis_service
         (PStr scenario_3) [])
  = Ok _get_fallback_analysis.
Proof.
  apply (proj1 (proj2 (proj2 (json_extraction JsonRef.loads JsonRef.repr
                                image_analysis_service scenario_3 [])))).
  apply RegexFacts.search_none. run.
Defined.

(** Two services that differ in their model name, two different logs. *)
Lemma parser_deterministic_witness :
  fst (_parse_llm_analysis JsonRef.loads JsonRef.repr
         (__init__ []) (PStr scenario_1) [])
  = fst (_parse_llm_analysis JsonRef.loads JsonRef.repr
           (__init__ [("OLLAMA_VISION_MODEL", "moondream")]) (PStr scenario_1)
           [InfoAnalyzing "leaf.jpg" "moondream"]).
Proof.
  apply (parser_deterministic JsonRef.loads JsonRef.repr
           (__init__ []) (__init__ [("OLLAMA_VISION_MODEL", "moondream")])
           (PStr scenario_1) [] [InfoAnalyzing "leaf.jpg" "moondream"]);
    reflexivity.
Defined.

(** Scenario 1: the condition of the model is the health status. *)
Lemma health_status_passthrough_witness :
  exists items,
    PDict (items_of scenario_1) = PDict items
    /\ Py.assoc "health_status" (returned scenario_1)
       = Some match Py.assoc "condition" items with
              | Some condition => condition
              | None => PStr "Unknown"
              end.
Proof.
  apply (health_status_passthrough JsonRef.loads JsonRef.repr
           image_analysis_service (PStr scenario_1)
           (PDict (items_of scenario_1)) (returned scenario_1)).
  accept.
Defined.

(** Scenario 1: a pest is detected, the severity is moderate. *)
Lemma severity_from_flags_witness :
  exists pest_detected disease_detected,
    Py.assoc "pest_detected" (returned scenario_1)
    = Some (PBool pest_detected)
    /\ Py.assoc "disease_detected" (returned scenario_1)
       = Some (PBool disease_detected)
    /\ Py.assoc "severity" (returned scenario_1)
       = Some (PStr (if pest_detected || disease_detected
                     then "Moderate" else "None")).
Proof.
  apply (severity_from_flags JsonRef.loads JsonRef.repr
           image_analysis_service (PStr scenario_1)
           (PDict (items_of scenario_1)) (returned scenario_1)).
  accept.
Defined.

(** The condition that contains both words. *)
Lemma detection_flags_witness :
  exists condition pest_detected disease_detected,
    Py.get (PDict (items_of both_flags_both_named)) "condition"
      (PStr "Unknown") = Ok (PStr condition)
    /\ Py.assoc "pest_detected" (returned both_flags_both_named)
       = Some (PBool pest_detected)
    /\ Py.assoc "disease_detected" (returned both_flags_both_named)
       = Some (PBool disease_detected)
    /\ pest_detected = PyStr.str_in "PEST" (PyStr.upper condition)
    /\ disease_detected = PyStr.str_in "DISEASE" (PyStr.upper condition)
    /\ (ci_substring "PEST" condition -> pest_detected = true)
    /\ (ci_substring "DISEASE" condition -> disease_detected = true)
    /\ (PyStr.all_ascii condition = true ->
        (pest_detected = true -> ci_substring "PEST" condition)
        /\ (disease_detected = true -> ci_substring "DISEASE" condition))
    /\ (condition = "Pest and Disease Detected" ->
        pest_detected = true /\ disease_detected = true).
Proof.
  apply (detection_flags JsonRef.loads JsonRef.repr
           image_analysis_service (PStr both_flags_both_named)
           (PDict (items_of both_flags_both_named))
           (returned both_flags_both_named)).
  accept.
Defined.

(** C5 as the specification words it fails on a character outside ASCII:
    the condition is "Pest Detected" written with the long s, U+017F.  No
    substring of it equals "PEST" up to the case of the letters, yet
    [upper] turns the long s into S and the pest flag is set. *)
Lemma long_s_sets_pest_flag :
  accepted JsonRef.loads JsonRef.repr image_analysis_service
    (PStr long_s_text) (PDict (items_of long_s_text)) (returned long_s_text)
  /\ Py.get (PDict (items_of long_s_text)) "condition" (PStr "Unknown")
     = Ok (PStr long_s_condition)
  /\ PyStr.upper long_s_condition = "PEST DETECTED"
  /\ Py.assoc "pest_detected" (returned long_s_text) = Some (PBool true)
  /\ ~ ci_substring "PEST" long_s_condition.
Proof.
  split; [accept |]. split; [run |]. split; [run |]. split; [run |].
  intros H. apply (StrFacts.in_upper_ci "PEST") in H.
  vm_compute in H. discriminate.
Qed.

(** Scenario 5: a healthy crop and an empty summary. *)
Lemma healthy_branch_default_witness :
  exists items condition,
    PDict (items_of scenario_5) = PDict items
    /\ Py.field items "condition" (PStr "Unknown") = PStr condition
    /\ Py.assoc "recommendations" (returned scenario_5)
       = Some (PList [PStr "Continue Good Agricultural Practices (GAP).";
                      PStr "Regular monitoring."])
    /\ Py.assoc "severity" (returned scenario_5) = Some (PStr "None")
    /\ (ci_substring "healthy" condition ->
        exists n,
          Py.len (Py.field items "natural_response" (PStr EmptyString)) = Ok n
          /\ Py.assoc "natural_summary" (returned scenario_5)
             = Some (if (n <? 10)%nat
                     then PStr ("The "
                                ++ Py.str JsonRef.repr
                                     (Py.field items "plant_name"
                                        (PStr "Unknown Crop"))
                                ++ " looks healthy. Keep up the good work!")
                     else Py.field items "natural_response"
                            (PStr EmptyString)))
    /\ (~ ci_substring "healthy" condition ->
        Py.assoc "natural_summary" (returned scenario_5)
        = Some (Py.field items "natural_response" (PStr EmptyString))).
Proof.
  apply (healthy_branch_default JsonRef.loads JsonRef.repr
           image_analysis_service (PStr scenario_5)
           (PDict (items_of scenario_5)) (returned scenario_5)).
  - accept.
  - run.
  - run.
Defined.

(** Scenario 5, evaluated: the summary names the crop. *)
Example scenario_5_summary :
  Py.assoc "natural_summary" (returned scenario_5)
  = Some (PStr "The Corn looks healthy. Keep up the good work!")
  /\ Py.assoc "severity" (returned scenario_5) = Some (PStr "None").
Proof. split; run. Qed.

(** A pest and a disease are both named: the advice is the disease's. *)
Lemma disease_match_overwrites_witness :
  exists pest disease,
    local_name pest = "Aksip / Stem Borer"
    /\ local_name disease = "Tungro"
    /\ Py.assoc "recommendations" (returned both_flags_both_named)
       = Some (str_list (control_methods disease))
    /\ Py.assoc "pest_info" (returned both_flags_both_named)
       = Some (record_value pest)
    /\ Py.assoc "disease_info" (returned both_flags_both_named)
       = Some (record_value disease)
    /\ Py.assoc "natural_summary" (returned both_flags_both_named)
       = Some (PStr "Rice with two problems. This resembles Aksip / Stem Borer.").
Proof.
  pose (issue := PyStr.upper "Stem borer damage with tungro").
  destruct (first_match (pest_database image_analysis_service) issue)
    as [pest|] eqn:P; [| discriminate].
  destruct (first_match (disease_database image_analysis_service) issue)
    as [disease|] eqn:D; [| discriminate].
  exists pest, disease.
  destruct (disease_match_overwrites JsonRef.loads JsonRef.repr
              image_analysis_service (PStr both_flags_both_named)
              (items_of both_flags_both_named)
              (returned both_flags_both_named) pest disease)
    as [R [I1 [I2 [_ S]]]].
  - accept.
  - run.
  - run.
  - apply wins_first_match. rewrite <- P. run.
  - apply wins_first_match. rewrite <- D. run.
  - injection P as <-. injection D as <-.
    split; [reflexivity |]. split; [reflexivity |].
    split; [exact R |]. split; [exact I1 |]. split; [exact I2 |].
    exact (S "Rice with two problems." eq_refl).
Defined.

(** Scenario 1: the stem borer record and its control methods. *)
Lemma knowledge_base_matching_witness :
  exists pest disease,
    wins (PyStr.upper "Stem Borer")
      (pest_database image_analysis_service) pest
    /\ disease = None
    /\ Py.assoc "pest_info" (returned scenario_1)
       = Some (optional_record pest)
    /\ Py.assoc "disease_info" (returned scenario_1)
       = Some (optional_record disease)
    /\ (true || false = true ->
        Py.assoc "recommendations" (returned scenario_1)
        = Some (str_list
                  match disease, pest with
                  | Some d, _ => control_methods d
                  | None, Some p => control_methods p
                  | None, None => ["Monitor the crop closely.";
                                   "Consult your local technician."]
                  end)).
Proof.
  apply (knowledge_base_matching JsonRef.loads JsonRef.repr
           image_analysis_service (PStr scenario_1) (items_of scenario_1)
           (returned scenario_1) true false).
  - accept.
  - run.
  - run.
Defined.

(** Scenario 1, evaluated. *)
Example scenario_1_advice :
  Py.assoc "plant_type" (returned scenario_1) = Some (PStr "Rice")
  /\ Py.assoc "pest_detected" (returned scenario_1) = Some (PBool true)
  /\ Py.assoc "recommendations" (returned scenario_1)
     = Some (str_list ["Light traps"; "Pheromone traps";
                       "Conservation of natural enemies"])
  /\ Py.assoc "pest_info" (returned scenario_1) <> Some PNone.
Proof. repeat split; try run. vm_compute. discriminate. Qed.

(** C4 as the specification words it fails on the disease side: here
    [disease_detected] is set and no record of the disease table matches
    the issue, so the info field stays absent, yet the recommendations are
    not the generic default: they are those of the pest match before. *)
Lemma no_disease_match_keeps_pest_advice :
  accepted JsonRef.loads JsonRef.repr image_analysis_service
    (PStr both_flags_pest_only) (PDict (items_of both_flags_pest_only))
    (returned both_flags_pest_only)
  /\ Py.assoc "disease_detected" (returned both_flags_pest_only)
     = Some (PBool true)
  /\ wins (PyStr.upper "Stem Borer")
       (disease_database image_analysis_service) None
  /\ Py.assoc "disease_info" (returned both_flags_pest_only) = Some PNone
  /\ Py.assoc "recommendations" (returned both_flags_pest_only)
     = Some (str_list ["Light traps"; "Pheromone traps";
                       "Conservation of natural enemies"])
  /\ Py.assoc "recommendations" (returned both_flags_pest_only)
     <> Some (str_list ["Monitor the crop closely.";
                        "Consult your local technician."]).
Proof.
  split; [accept |]. split; [run |].
  split; [apply wins_first_match; run |]. split; [run |]. split; [run |].
  vm_compute. discriminate.
Qed.

End Scenarios.

(* ===================================================================== *)
(** * Further properties of the parser *)
(* ===================================================================== *)

Section MoreParserFacts.

Context {U : PyStr.Unicode}.
Variable json_loads : string -> exc pyval.
Variable repr : pyval -> string.
Variable self : ImageAnalysisService.

Local Abbreviation parse := (_parse_llm_analysis json_loads repr self).
Local Abbreviation body := (parse_body json_loads repr self).
Local Abbreviation response_of items :=
  (Py.field items "natural_response" (PStr EmptyString)).
Local Abbreviation issue_of items :=
  (PyStr.upper (Py.str repr (Py.field items "detected_issue" (PStr EmptyString)))).

(** A gate that answers saw a dict. *)
Lemma rejects_sees_dict (data : pyval) (b : bool) :
  rejects data = Ok b -> exists items, data = PDict items.
Proof. destruct data; try discriminate. eauto. Qed.

(** A body that returns took the rejection or completed the branch. *)
Lemma body_ok_cases (content : pyval) (r : pydict) :
  body content = Ok r ->
  (exists items,
      extract_json json_loads content = Ok (PDict items)
      /\ rejects (PDict items) = Ok true
      /\ non_agricultural_result (PDict items) = Ok r)
  \/ (exists data, accepted json_loads repr self content data r).
Proof.
  unfold parse_body. destruct (extract_json json_loads content) as [data|] eqn:E;
    [| discriminate].
  simpl. destruct (rejects data) as [[|]|] eqn:G; [| | discriminate]; simpl.
  - destruct (rejects_sees_dict _ _ G) as [items ->]. intros N. left.
    now exists items.
  - intros A. right. exists data. now repeat split.
Qed.

(** Every result, on every path, binds the seven keys that the three
    result shapes share; the flags are booleans, the recommendations a
    list, and the sources the empty list. *)
Theorem result_has_common_keys (content : pyval) (log : list log_record) :
  exists r,
    fst (parse content log) = Ok r
    /\ (exists v, Py.assoc "plant_type" r = Some v)
    /\ (exists b, Py.assoc "pest_detected" r = Some (PBool b))
    /\ (exists b, Py.assoc "disease_detected" r = Some (PBool b))
    /\ (exists v, Py.assoc "health_status" r = Some v)
    /\ (exists l, Py.assoc "recommendations" r = Some (PList l))
    /\ Py.assoc "sources" r = Some (PList [])
    /\ (exists v, Py.assoc "natural_summary" r = Some v).
Proof.
  destruct (body content) as [r|e] eqn:B.
  - exists r. rewrite (parse_of_ok _ _ _ _ _ _ B). split; [reflexivity |].
    destruct (body_ok_cases _ _ B) as [[items [_ [_ N]]] | [data [_ [_ A]]]].
    + simpl in N. injection N as <-. simpl. unfold str_list.
      repeat split; eauto.
    + destruct (agricultural_inv _ _ _ _ A)
        as [items [c [pm [v1 [dm [v2 [v3 [_ [_ [_ [_ [_ ->]]]]]]]]]]]].
      simpl. unfold str_list. repeat split; eauto.
  - exists _get_fallback_analysis. rewrite (parse_of_raise _ _ _ _ _ _ B).
    simpl. repeat split; eauto.
Qed.

(** The [severity] key is missing from the result exactly when the body of
    the parser raised: the fallback is the one result without it. *)
Theorem severity_missing_iff_failed (content : pyval) (r : pydict)
    (log : list log_record) :
  fst (parse content log) = Ok r ->
  (Py.assoc "severity" r = None <-> exists e, body content = Raise e).
Proof.
  destruct (body content) as [r'|e] eqn:B.
  - rewrite (parse_of_ok _ _ _ _ _ _ B). simpl. intros H. injection H as <-.
    split; [| intros [e H]; discriminate].
    destruct (body_ok_cases _ _ B) as [[items [_ [_ N]]] | [data [_ [_ A]]]].
    + simpl in N. injection N as <-. discriminate.
    + destruct (agricultural_inv _ _ _ _ A)
        as [items [c [pm [v1 [dm [v2 [v3 [_ [_ [_ [_ [_ ->]]]]]]]]]]]].
      discriminate.
  - rewrite (parse_of_raise _ _ _ _ _ _ B). simpl. intros H. injection H as <-.
    split; [eauto | reflexivity].
Qed.

(** The gate tests the truth value of [is_agricultural]: [null], [0],
    the empty string, list or object are rejected like [false], whatever
    the confidence. *)
Theorem falsy_flag_rejected (content : pyval) (items : pydict)
    (log : list log_record) :
  extract_json json_loads content = Ok (PDict items) ->
  Py.truthy (Py.field items "is_agricultural" (PBool false)) = false ->
  parse content log
  = (Ok [ ("plant_type", PStr "Non-Agricultural Object");
          ("pest_detected", PBool false);
          ("disease_detected", PBool false);
          ("health_status", PStr "Not Agricultural");
          ("severity", PStr "None");
          ("recommendations",
           PList [PStr "Please upload a clear photo of a crop, plant, or pest."]);
          ("sources", PList []);
          ("natural_summary",
           Py.field items "natural_response"
             (PStr "I'm sorry, I couldn't recognize a plant or crop in this image.")) ],
     log).
Proof.
  intros E T. apply parse_of_ok. unfold parse_body. rewrite E. simpl bind.
  rewrite rejects_dict, T. reflexivity.
Qed.

(** With a true [is_agricultural], a [confidence_score] that is not a
    number (a string, [null], a list, an object) cannot be compared with
    40: the parser answers with the fallback and logs the [TypeError]. *)
Theorem non_numeric_confidence_falls_back (content : pyval) (items : pydict)
    (log : list log_record) :
  extract_json json_loads content = Ok (PDict items) ->
  Py.truthy (Py.field items "is_agricultural" (PBool false)) = true ->
  match Py.field items "confidence_score" (PInt 100) with
  | PBool _ | PInt _ | PFloat _ => False
  | _ => True
  end ->
  parse content log
  = (Ok _get_fallback_analysis, (log ++ [ErrorJsonParse TypeError])%list).
Proof.
  intros E T C. apply parse_of_raise. unfold parse_body. rewrite E. simpl bind.
  rewrite rejects_dict, T. simpl.
  destruct (Py.field items "confidence_score" (PInt 100));
    try contradiction; reflexivity.
Qed.

(** An object that passes the gate and whose [condition] and
    [natural_response] are strings, or absent, is always accepted: the
    agricultural branch cannot raise on it. *)
Theorem well_typed_object_accepted (content : pyval) (items : pydict)
    (condition text : string) (log : list log_record) :
  extract_json json_loads content = Ok (PDict items) ->
  Py.truthy (Py.field items "is_agricultural" (PBool false)) = true ->
  Py.lt_40 (Py.field items "confidence_score" (PInt 100)) = Ok false ->
  Py.field items "condition" (PStr "Unknown") = PStr condition ->
  response_of items = PStr text ->
  exists r,
    accepted json_loads repr self content (PDict items) r
    /\ parse content log = (Ok r, log)
    /\ Py.assoc "health_status" r = Some (PStr condition).
Proof.
  intros E T C Hc Ht.
  destruct (agricultural_returns repr self items condition text Hc Ht)
    as [r A].
  assert (Acc : accepted json_loads repr self content (PDict items) r).
  { repeat split; [exact E | now rewrite rejects_dict, T | exact A]. }
  exists r. split; [exact Acc |]. split; [now apply accepted_parse with (PDict items) |].
  destruct (agricultural_inv _ _ _ _ A)
    as [items' [c [pm [v1 [dm [v2 [v3 [I [Hc' [_ [_ [_ ->]]]]]]]]]]]].
  injection I as <-. simpl. congruence.
Qed.

(** An object that passes the gate with a [condition] that is not a
    string ([null], a number, a list) has no [upper]: the parser answers
    with the fallback and logs the [AttributeError]. *)
Theorem non_string_condition_falls_back (content : pyval) (items : pydict)
    (log : list log_record) :
  extract_json json_loads content = Ok (PDict items) ->
  rejects (PDict items) = Ok false ->
  (forall c, Py.field items "condition" (PStr "Unknown") <> PStr c) ->
  parse content log
  = (Ok _get_fallback_analysis, (log ++ [ErrorJsonParse AttributeError])%list).
Proof.
  intros E G C. apply parse_of_raise. unfold parse_body. rewrite E. simpl bind.
  rewrite G. unfold agricultural_result. simpl.
  destruct (Py.field items "condition" (PStr "Unknown")) eqn:F;
    try reflexivity.
  now destruct (C s).
Qed.

(** A loop that finds a match on a summary without a length raises. *)
Lemma match_loop_raises (table : database) (cu : string) (vars : locals)
    (info : KnowledgeRecord) (e : exn) :
  first_match table cu = Some info ->
  Py.len (natural_summary vars) = Raise e ->
  match_loop table cu vars = Raise e.
Proof.
  intros F L. induction table as [|[k i] rest IH]; simpl in *; [discriminate |].
  destruct (record_matches k i cu); [now rewrite L | auto].
Qed.

(** On a string summary the loop only ever appends. *)
Lemma match_loop_extends (table : database) (cu : string)
    (recs : list string) (text : string) (o : option KnowledgeRecord)
    (vars' : locals) :
  match_loop table cu {| recommendations := recs; natural_summary := PStr text |}
  = Ok (o, vars') ->
  exists suffix, natural_summary vars' = PStr (text ++ suffix).
Proof.
  induction table as [|[k i] rest IH]; simpl; intros H.
  - injection H as _ <-. exists EmptyString. simpl.
    now rewrite StrFacts.app_nil_r.
  - destruct (record_matches k i cu); [| now apply IH].
    destruct (String.length text <? 50)%nat; simpl in H; injection H as _ <-.
    + now exists (resembles i).
    + exists EmptyString. simpl. now rewrite StrFacts.app_nil_r.
Qed.

(** The record the loop returns is one of the table. *)
Lemma first_match_in (table : database) (cu : string)
    (info : KnowledgeRecord) :
  first_match table cu = Some info -> exists key, In (key, info) table.
Proof.
  induction table as [|[k i] rest IH]; simpl; [discriminate |].
  destruct (record_matches k i cu).
  - intros H. injection H as <-. exists k. now left.
  - intros H. destruct (IH H) as [key K]. exists key. now right.
Qed.

(** Without a match the loop has no effect. *)
Lemma match_loop_no_match (table : database) (cu : string) (vars : locals) :
  first_match table cu = None -> match_loop table cu vars = Ok (None, vars).
Proof.
  induction table as [|[k i] rest IH]; simpl; [reflexivity |].
  destruct (record_matches k i cu); [discriminate | exact IH].
Qed.

(** When [natural_response] has no length ([null], a number, a boolean),
    the parser falls back exactly when [len] is reached: a flag is set and
    its table has a match, or no flag is set and the lower-cased condition
    contains ["healthy"].  Otherwise the object is accepted and that value
    is returned as the summary, unchanged. *)
Theorem unsized_summary_fails_iff_len_reached (content : pyval)
    (items : pydict) (condition : string) (log : list log_record) :
  extract_json json_loads content = Ok (PDict items) ->
  rejects (PDict items) = Ok false ->
  Py.field items "condition" (PStr "Unknown") = PStr condition ->
  match response_of items with
  | PNone | PBool _ | PInt _ | PFloat _ => True
  | _ => False
  end ->
  let pest_detected := PyStr.str_in "PEST" (PyStr.upper condition) in
  let disease_detected := PyStr.str_in "DISEASE" (PyStr.upper condition) in
  let len_reached :=
    (pest_detected = true
     /\ exists pest, wins (issue_of items) (pest_database self) (Some pest))
    \/ (disease_detected = true
        /\ exists disease,
             wins (issue_of items) (disease_database self) (Some disease))
    \/ (pest_detected = false /\ disease_detected = false
        /\ PyStr.str_in "healthy" (PyStr.lower condition) = true) in
  (len_reached ->
   parse content log
   = (Ok _get_fallback_analysis, (log ++ [ErrorJsonParse TypeError])%list))
  /\ (~ len_reached ->
      exists r,
        accepted json_loads repr self content (PDict items) r
        /\ parse content log = (Ok r, log)
        /\ Py.assoc "natural_summary" r = Some (response_of items)).
Proof.
  intros E G C N pd dd reached.
  assert (Len : Py.len (response_of items) = Raise TypeError).
  { destruct (response_of items); try contradiction; reflexivity. }
  assert (Loop : forall table recs,
             match_loop table (issue_of items)
               {| recommendations := recs;
                  natural_summary := response_of items |}
             = match first_match table (issue_of items) with
               | Some _ => Raise TypeError
               | None => Ok (None, {| recommendations := recs;
                                      natural_summary := response_of items |})
               end).
  { intros table recs.
    destruct (first_match table (issue_of items)) as [info|] eqn:F.
    - now apply (match_loop_raises _ _ _ info).
    - now apply match_loop_no_match. }
  assert (Body : body content = agricultural_result repr self (PDict items)).
  { unfold parse_body. rewrite E. simpl bind. now rewrite G. }
  assert (Branch :
            agricultural_result repr self (PDict items)
            = if (pd && match first_match (pest_database self) (issue_of items)
                        with Some _ => true | None => false end)
                 || (dd && match first_match (disease_database self)
                                   (issue_of items)
                           with Some _ => true | None => false end)
                 || (negb pd && negb dd
                     && PyStr.str_in "healthy" (PyStr.lower condition))
              then Raise TypeError
              else Ok [ ("plant_type",
                         Py.field items "plant_name" (PStr "Unknown Crop"));
                        ("pest_detected", PBool pd);
                        ("disease_detected", PBool dd);
                        ("health_status", PStr condition);
                        ("severity",
                         PStr (if pd || dd then "Moderate" else "None"));
                        ("pest_info", PNone);
                        ("disease_info", PNone);
                        ("recommendations",
                         str_list
                           (if negb pd && negb dd
                            then ["Continue Good Agricultural Practices (GAP).";
                                  "Regular monitoring."]
                            else monitor_default));
                        ("sources", PList []);
                        ("natural_summary", response_of items) ]).
  { unfold agricultural_result. simpl. rewrite C. simpl. fold pd dd.
    fold monitor_default.
    destruct pd, dd; simpl; rewrite ?Loop;
      repeat match goal with
             | |- context [first_match ?t ?c] =>
                 destruct (first_match t c); simpl; rewrite ?Loop
             end;
      try reflexivity;
      unfold healthy_branch; simpl;
      destruct (PyStr.str_in "healthy" (PyStr.lower condition)); simpl;
      rewrite ?Len; reflexivity. }
  assert (Reached :
            reached
            <-> (pd && match first_match (pest_database self) (issue_of items)
                       with Some _ => true | None => false end)
                || (dd && match first_match (disease_database self)
                                  (issue_of items)
                          with Some _ => true | None => false end)
                || (negb pd && negb dd
                    && PyStr.str_in "healthy" (PyStr.lower condition))
                = true).
  { unfold reached.
    rewrite !orb_true_iff, !andb_true_iff, !negb_true_iff.
    assert (W : forall table,
               (exists i, wins (issue_of items) table (Some i))
               <-> match first_match table (issue_of items)
                   with Some _ => true | None => false end = true).
    { intros table. split.
      - intros [i W]. apply wins_first_match in W. now rewrite W.
      - destruct (first_match table (issue_of items)) as [i|] eqn:F;
          [| discriminate].
        intros _. exists i. now apply wins_first_match. }
    rewrite !W. tauto. }
  split.
  - intros R. apply Reached in R. apply parse_of_raise.
    now rewrite Body, Branch, R.
  - intros R.
    destruct ((pd && _) || (dd && _) || (negb pd && negb dd && _)) eqn:B.
    + exfalso. now apply R, Reached.
    + eexists. split; [| split].
      * repeat split; [exact E | exact G | exact Branch].
      * apply parse_of_ok. now rewrite Body.
      * reflexivity.
Qed.

(** A [natural_response] that is a list is not rejected: when the disease
    loop is the only one that finds a record (the pest flag is not set, or
    no pest record matches) and the list has fewer than 50 elements, [+=]
    extends the list with the characters of the sentence, one element
    each. *)
Theorem list_summary_extended_by_characters (content : pyval)
    (items r : pydict) (pest_detected : bool) (l : list pyval)
    (disease : KnowledgeRecord) :
  accepted json_loads repr self content (PDict items) r ->
  Py.assoc "pest_detected" r = Some (PBool pest_detected) ->
  (pest_detected = true ->
   wins (issue_of items) (pest_database self) None) ->
  Py.assoc "disease_detected" r = Some (PBool true) ->
  response_of items = PList l ->
  (List.length l < 50)%nat ->
  wins (issue_of items) (disease_database self) (Some disease) ->
  Py.assoc "natural_summary" r
  = Some (PList (l ++ Py.chars (" This resembles " ++ local_name disease ++ "."))).
Proof.
  intros [_ [_ A]] P NoPest D T Len W.
  destruct (agricultural_inv _ _ _ _ A)
    as [items' [c [pm [v1 [dm [v2 [v3 [E [C [L1 [L2 [L3 ->]]]]]]]]]]]].
  injection E as <-. cbv zeta in *. simpl in P, D. apply flag_inj in P, D.
  rewrite P in *. rewrite D in *.
  assert (E1 : v1 = {| recommendations := monitor_default;
                       natural_summary := response_of items |}).
  { destruct pest_detected.
    - specialize (NoPest eq_refl). apply wins_first_match in NoPest.
      rewrite (match_loop_no_match _ _ _ NoPest) in L1. now injection L1.
    - now injection L1. }
  subst v1.
  assert (E3 : v3 = v2).
  { rewrite andb_false_r in L3. now injection L3. }
  subst v3.
  apply wins_first_match in W.
  pose proof (match_loop_first _ _ _ _ _ L2) as F. rewrite W in F. subst dm.
  destruct (match_loop_some _ _ _ _ _ L2) as [_ [n [N S]]].
  simpl in N, S. rewrite T in N, S. simpl in N. injection N as <-.
  apply Nat.ltb_lt in Len. rewrite Len in S. simpl in S.
  injection S as <-. reflexivity.
Qed.

(** Replacing a character by an ASCII one keeps a string ASCII. *)
Lemma all_ascii_replace (old new : ascii) (s : string) :
  PyStr.is_ascii new = true -> PyStr.all_ascii s = true ->
  PyStr.all_ascii (PyStr.replace_char old new s) = true.
Proof.
  intros Hn. unfold PyStr.replace_char.
  induction s as [|c s IH]; [reflexivity |].
  cbn [PyStr.map_chars PyStr.all_ascii]. rewrite !andb_true_iff.
  intros [Hc Hs]. split; [| now apply IH].
  now destruct (Ascii.eqb c old).
Qed.

(** For an identifier and a local name of ASCII characters, the match of
    a record ignores the case of the letters: it holds whenever the
    identifier, underscores read as spaces, or the local name occurs in the
    issue up to case, and for an issue of ASCII characters only then. *)
Theorem record_matches_ignores_case (key : string) (info : KnowledgeRecord)
    (issue : string) :
  PyStr.all_ascii key = true ->
  PyStr.all_ascii (local_name info) = true ->
  (ci_substring (PyStr.replace_char "_" " " key) issue
   \/ ci_substring (local_name info) issue ->
   record_matches key info (PyStr.upper issue) = true)
  /\ (PyStr.all_ascii issue = true ->
      record_matches key info (PyStr.upper issue) = true ->
      ci_substring (PyStr.replace_char "_" " " key) issue
      \/ ci_substring (local_name info) issue).
Proof.
  intros Ak Al.
  assert (Ar : PyStr.all_ascii (PyStr.replace_char "_" " " key) = true)
    by now apply all_ascii_replace.
  unfold record_matches.
  rewrite (CaseFacts.upper_of_ascii _ Ar), (CaseFacts.upper_of_ascii _ Al).
  split.
  - rewrite orb_true_iff.
    intros [H | H]; [left | right]; now apply CaseFacts.ci_in_upper.
  - intros Ai. rewrite (CaseFacts.upper_of_ascii _ Ai).
    now rewrite orb_true_iff, !StrFacts.in_upper_ci.
Qed.

(** The prose around the JSON object has no effect: a text with anything
    free of opening braces before the object, and anything free of closing
    braces after it, is parsed as the object alone, log included. *)
Theorem surrounding_prose_ignored (pre inner post : string)
    (log : list log_record) :
  ~ PyStr.occurs "{" pre ->
  ~ PyStr.occurs "}" post ->
  parse (PStr (pre ++ "{" ++ inner ++ "}" ++ post)) log
  = parse (PStr ("{" ++ inner ++ "}")) log.
Proof.
  intros Hpre Hpost.
  assert (M1 : Regex.search_braces (pre ++ "{" ++ inner ++ "}" ++ post)
               = Some ("{" ++ inner ++ "}")).
  { apply RegexFacts.search_some. now exists pre, inner, post. }
  assert (M2 : Regex.search_braces ("{" ++ inner ++ "}")
               = Some ("{" ++ inner ++ "}")).
  { apply RegexFacts.search_some. exists EmptyString, inner, EmptyString.
    simpl. tauto. }
  unfold _parse_llm_analysis, parse_body.
  now rewrite (extract_of_match json_loads _ _ M1),
              (extract_of_match json_loads _ _ M2).
Qed.

(** With a flag set, the text of the model is never lost: a string
    [natural_response] is a prefix of the returned summary. *)
Theorem flagged_summary_keeps_model_text (content : pyval) (items r : pydict)
    (pest_detected disease_detected : bool) (text : string) :
  accepted json_loads repr self content (PDict items) r ->
  Py.assoc "pest_detected" r = Some (PBool pest_detected) ->
  Py.assoc "disease_detected" r = Some (PBool disease_detected) ->
  pest_detected || disease_detected = true ->
  response_of items = PStr text ->
  exists suffix,
    Py.assoc "natural_summary" r = Some (PStr (text ++ suffix)).
Proof.
  intros [_ [_ A]] P D F T.
  destruct (agricultural_inv _ _ _ _ A)
    as [items' [c [pm [v1 [dm [v2 [v3 [E [C [L1 [L2 [L3 ->]]]]]]]]]]]].
  injection E as <-. cbv zeta in *. simpl in P, D. apply flag_inj in P, D.
  rewrite P in *. rewrite D in *. rewrite T in L1. simpl Py.assoc.
  assert (E3 : v3 = v2).
  { destruct pest_detected, disease_detected; simpl in L3, F;
      try discriminate; now injection L3. }
  subst v3.
  assert (S1 : exists s1, natural_summary v1 = PStr (text ++ s1)).
  { destruct pest_detected.
    - now apply match_loop_extends in L1.
    - injection L1 as _ <-. exists EmptyString. simpl.
      now rewrite StrFacts.app_nil_r. }
  destruct S1 as [s1 S1]. destruct v1 as [recs1 sum1]. simpl in S1. subst sum1.
  destruct disease_detected.
  - apply match_loop_extends in L2 as [s2 ->].
    exists (s1 ++ s2). now rewrite StrFacts.app_assoc.
  - injection L2 as _ <-. now exists s1.
Qed.

(** When every record of the two tables has control methods, an empty
    list of recommendations is the mark of the fallback: the result has
    one exactly when the body of the parser raised. *)
Theorem empty_recommendations_iff_failed (content : pyval) (r : pydict)
    (log : list log_record) :
  (forall key info,
      In (key, info) (pest_database self ++ disease_database self)%list ->
      control_methods info <> []) ->
  fst (parse content log) = Ok r ->
  (Py.assoc "recommendations" r = Some (PList [])
   <-> exists e, body content = Raise e).
Proof.
  intros K. destruct (body content) as [r'|e] eqn:B.
  - rewrite (parse_of_ok _ _ _ _ _ _ B). simpl. intros H. injection H as <-.
    split; [| intros [e H]; discriminate].
    destruct (body_ok_cases _ _ B) as [[items [_ [_ N]]] | [data [_ [_ A]]]].
    + simpl in N. injection N as <-. discriminate.
    + destruct (agricultural_inv _ _ _ _ A)
        as [items [c [pm [v1 [dm [v2 [v3 [_ [_ [L1 [L2 [L3 ->]]]]]]]]]]]].
      cbv zeta in *. simpl Py.assoc. intros H. exfalso.
      assert (R3 : recommendations v3 = []).
      { injection H as H. now destruct (recommendations v3). }
      clear H.
      assert (Step : forall table cu vars o vars',
                 (forall key info, In (key, info) table ->
                                   control_methods info <> []) ->
                 recommendations vars <> [] ->
                 match_loop table cu vars = Ok (o, vars') ->
                 recommendations vars' <> []).
      { intros table cu vars o vars' KT NE L. destruct o as [info|].
        - destruct (match_loop_some _ _ _ _ _ L) as [-> _].
          apply match_loop_first in L.
          destruct (first_match_in _ _ _ L) as [key I]. now apply (KT key).
        - now apply match_loop_none in L as ->. }
      assert (R1 : recommendations v1 <> []).
      { destruct (PyStr.str_in "PEST" (PyStr.upper c)).
        - refine (Step _ _ _ _ _ _ _ L1).
          + intros k i H. apply (K k i), in_or_app. now left.
          + discriminate.
        - injection L1 as _ <-. discriminate. }
      assert (R2 : recommendations v2 <> []).
      { destruct (PyStr.str_in "DISEASE" (PyStr.upper c)).
        - refine (Step _ _ _ _ _ _ R1 L2).
          intros k i H. apply (K k i), in_or_app. now right.
        - now injection L2 as _ <-. }
      destruct (negb _ && negb _).
      * unfold healthy_branch in L3. simpl in L3.
        destruct (PyStr.str_in "healthy" (PyStr.lower c)); simpl in L3.
        -- destruct (Py.len (natural_summary v2)); [| discriminate].
           simpl in L3. injection L3 as <-. discriminate.
        -- injection L3 as <-. discriminate.
      * injection L3 as <-. contradiction.
  - rewrite (parse_of_raise _ _ _ _ _ _ B). simpl. intros H. injection H as <-.
    split; [eauto | reflexivity].
Qed.

(** A [confidence_score] that is a JSON boolean is compared as the
    integer 0 or 1, so it is below 40: the object is rejected even when
    [is_agricultural] is true. *)
Theorem boolean_confidence_rejected (content : pyval) (items : pydict)
    (b : bool) (log : list log_record) :
  extract_json json_loads content = Ok (PDict items) ->
  Py.field items "confidence_score" (PInt 100) = PBool b ->
  exists r,
    parse content log = (Ok r, log)
    /\ Py.assoc "plant_type" r = Some (PStr "Non-Agricultural Object")
    /\ Py.assoc "health_status" r = Some (PStr "Not Agricultural").
Proof.
  intros E C.
  assert (G : rejects (PDict items) = Ok true).
  { rewrite rejects_dict, C. destruct (negb _); [reflexivity |].
    now destruct b. }
  eexists. split.
  - apply parse_of_ok. unfold parse_body. rewrite E. simpl bind. rewrite G.
    reflexivity.
  - split; reflexivity.
Qed.

(** The two info keys tell an accepted parse from the other two results:
    the result binds [pest_info], and likewise [disease_info], exactly when
    the parse was accepted; the rejected and the fallback results bind
    neither. *)
Theorem info_keys_iff_accepted (content : pyval) (r : pydict)
    (log : list log_record) :
  fst (parse content log) = Ok r ->
  ((exists v, Py.assoc "pest_info" r = Some v)
   <-> exists data, accepted json_loads repr self content data r)
  /\ ((exists w, Py.assoc "disease_info" r = Some w)
      <-> exists data, accepted json_loads repr self content data r)
  /\ ((forall data, ~ accepted json_loads repr self content data r) ->
      Py.assoc "pest_info" r = None /\ Py.assoc "disease_info" r = None).
Proof.
  destruct (body content) as [r'|e] eqn:B.
  - rewrite (parse_of_ok _ _ _ _ _ _ B). simpl. intros H. injection H as <-.
    destruct (body_ok_cases _ _ B) as [[items [E [G N]]] | [data A]].
    + simpl in N. injection N as <-.
      assert (No : ~ exists data,
                     accepted json_loads repr self content data
                       [("plant_type", PStr "Non-Agricultural Object");
                        ("pest_detected", PBool false);
                        ("disease_detected", PBool false);
                        ("health_status", PStr "Not Agricultural");
                        ("severity", PStr "None");
                        ("recommendations",
                         str_list ["Please upload a clear photo of a crop, plant, or pest."]);
                        ("sources", PList []);
                        ("natural_summary",
                         Py.field items "natural_response"
                           (PStr "I'm sorry, I couldn't recognize a plant or crop in this image."))]).
      { intros [data [E' [G' _]]]. rewrite E in E'. injection E' as <-.
        rewrite G in G'. discriminate. }
      split; [| split].
      * split; [intros [v H]; discriminate | intros H; now destruct No].
      * split; [intros [v H]; discriminate | intros H; now destruct No].
      * intros _. split; reflexivity.
    + pose proof A as [_ [_ A']].
      destruct (agricultural_inv _ _ _ _ A')
        as [items [c [pm [v1 [dm [v2 [v3 [_ [_ [_ [_ [_ ->]]]]]]]]]]]].
      split; [| split].
      * split; [eauto | intros _; simpl; eauto].
      * split; [eauto | intros _; simpl; eauto].
      * intros H. now destruct (H data).
  - rewrite (parse_of_raise _ _ _ _ _ _ B). simpl. intros H. injection H as <-.
    assert (No : ~ exists data,
                   accepted json_loads repr self content data
                     _get_fallback_analysis).
    { intros [data A]. apply accepted_body in A. congruence. }
    split; [| split].
    + split; [intros [v H]; discriminate | intros H; now destruct No].
    + split; [intros [v H]; discriminate | intros H; now destruct No].
    + intros _. split; reflexivity.
Qed.

End MoreParserFacts.

(** No record of the service's tables is shadowed: each one is the first
    match of its own identifier, underscores read as spaces, and of its
    own local name. *)
Theorem shipped_records_found_by_name {U : PyStr.Unicode} :
  Forall (found_by_its_names (pest_database image_analysis_service))
    (pest_database image_analysis_service)
  /\ Forall (found_by_its_names (disease_database image_analysis_service))
       (disease_database image_analysis_service).
Proof.
  split;
    repeat (apply Forall_cons;
            [ split; apply wins_first_match;
              cbv - [PyStr.upper PyStr.str_in];
              repeat match goal with
                     | |- context [PyStr.upper ?x] =>
                         rewrite (CaseFacts.upper_of_ascii x)
                           by (vm_compute; reflexivity)
                     end;
              vm_compute; reflexivity
            | ]);
    apply Forall_nil.
Qed.

(* ===================================================================== *)
(** * Further properties of the entry point *)
(* ===================================================================== *)

(** An occurrence in the tail of a text is an occurrence in the text. *)
Lemma str_in_app_r (needle a b : string) :
  PyStr.str_in needle b = true -> PyStr.str_in needle (a ++ b) = true.
Proof.
  rewrite !StrFacts.str_in_spec. intros [x [y ->]].
  exists (a ++ x), y. now rewrite StrFacts.app_assoc.
Qed.

(** The prompt is a fixed text around the caller's context, which is
    inserted as it is; whatever the context, the prompt names, in quotes,
    each of the six fields that the parser reads. *)
Theorem prompt_carries_context_and_schema :
  exists prefix suffix,
    forall context,
      build_prompt context = prefix ++ context ++ suffix
      /\ (forall key, In key schema_keys ->
                      PyStr.str_in (quoted key) (build_prompt context) = true).
Proof.
  exists (String.substring 0 113 (build_prompt EmptyString)),
         (String.substring 113 1332 (build_prompt EmptyString)).
  intros context.
  assert (E : build_prompt context
              = String.substring 0 113 (build_prompt EmptyString)
                ++ context
                ++ String.substring 113 1332 (build_prompt EmptyString)).
  { unfold build_prompt, ln. simpl. rewrite !StrFacts.app_assoc. reflexivity. }
  split; [exact E |].
  intros key H. rewrite E. apply str_in_app_r, str_in_app_r.
  simpl in H.
  repeat (destruct H as [<- | H]; [vm_compute; reflexivity |]).
  contradiction.
Qed.

Section MoreAnalyzeFacts.

Context {U : PyStr.Unicode}.
Variable json_loads : string -> exc pyval.
Variable repr : pyval -> string.
Variable ollama_chat : string -> list message -> outcome pyval.
Variable self : ImageAnalysisService.
Variable image_data : list Byte.byte.
Variables filename context : string.

Local Abbreviation analyze :=
  (analyze_image json_loads repr ollama_chat self image_data filename
     context).
Local Abbreviation call :=
  (ollama_chat (ollama_vision_model self)
     [ {| role := "user";
          content := build_prompt context;
          images := [image_data] |} ]).
Local Abbreviation content_of response :=
  (message <- Py.getitem response "message" ;; Py.getitem message "content").

(** What one call adds to the log, cause by cause.  The request is always
    recorded first.  A [base_exception] out of the model call leaves
    nothing more and goes on to the caller.  An exception of the call, or a
    response without message content, is logged as a failure of the
    analysis, with that exception, and the fallback is returned.  Once the
    content is read it is logged raw; a parser body that returns adds
    nothing, and one that raises adds the parse error with its exception
    and never a failure of the analysis: the inner handler answers it. *)
Theorem analyze_log_shape (log : list log_record) :
  let requested :=
    (log ++ [InfoAnalyzing filename (ollama_vision_model self)])%list in
  (forall b, call = Escapes b -> analyze log = (Escapes b, requested))
  /\ (forall e,
         call = Raises e ->
         analyze log
         = (Returns _get_fallback_analysis,
            (requested ++ [ErrorAnalysisFailed e])%list))
  /\ (forall response e,
         call = Returns response -> content_of response = Raise e ->
         analyze log
         = (Returns _get_fallback_analysis,
            (requested ++ [ErrorAnalysisFailed e])%list))
  /\ (forall response text r,
         call = Returns response -> content_of response = Ok text ->
         parse_body json_loads repr self text = Ok r ->
         analyze log
         = (Returns r, (requested ++ [InfoRawResponse text])%list))
  /\ (forall response text e,
         call = Returns response -> content_of response = Ok text ->
         parse_body json_loads repr self text = Raise e ->
         analyze log
         = (Returns _get_fallback_analysis,
            (requested ++ [InfoRawResponse text; ErrorJsonParse e])%list)).
Proof.
  intros requested. subst requested. rewrite analyze_cases. cbv zeta.
  split; [| split; [| split; [| split]]].
  - intros b C. now rewrite C.
  - intros e C. now rewrite C.
  - intros response e C T. now rewrite C, T.
  - intros response text r C T B. rewrite C, T. unfold of_logged.
    now rewrite (parse_of_ok _ _ _ _ _ _ B).
  - intros response text e C T B. rewrite C, T. unfold of_logged.
    rewrite (parse_of_raise _ _ _ _ _ _ B).
    now rewrite <- !List.app_assoc.
Qed.

(** The file name is only logged: it is not sent to the model and does not
    reach the parser, so the result is the same under any other name and
    in any state of the log. *)
Theorem filename_only_logged (filename' : string)
    (log log' : list log_record) :
  fst (analyze log)
  = fst (analyze_image json_loads repr ollama_chat self image_data filename'
           context log').
Proof.
  rewrite !analyze_cases. cbv zeta.
  destruct call as [response | e | b]; [| reflexivity | reflexivity].
  destruct (content_of response) as [text | e]; [| reflexivity].
  unfold of_logged.
  destruct (parse_body json_loads repr self text) as [r | e] eqn:B.
  - now rewrite !(parse_of_ok _ _ _ _ _ _ B).
  - now rewrite !(parse_of_raise _ _ _ _ _ _ B).
Qed.

(** A response whose message content is not a string ([None], a number, a
    list) is logged, then refused by [re.search]: the caller gets the
    fallback, and the log shows a parse error with the [TypeError]. *)
Theorem non_string_content_falls_back (response text : pyval)
    (log : list log_record) :
  call = Returns response ->
  content_of response = Ok text ->
  (forall s, text <> PStr s) ->
  analyze log
  = (Returns _get_fallback_analysis,
     (log ++ [InfoAnalyzing filename (ollama_vision_model self);
              InfoRawResponse text;
              ErrorJsonParse TypeError])%list).
Proof.
  intros C T N. rewrite analyze_cases. cbv zeta. rewrite C, T.
  unfold of_logged.
  rewrite (parse_of_raise _ _ _ _ TypeError).
  - now rewrite <- !List.app_assoc.
  - unfold parse_body, extract_json.
    destruct text; try reflexivity. now destruct (N s).
Qed.

End MoreAnalyzeFacts.

(* ===================================================================== *)
(** * The edge cases, run through the theorems *)
(* ===================================================================== *)

Section EdgeCases.

#[local] Existing Instance UnicodeSample.tables.

(** No JSON at all: the result has no severity. *)
Lemma severity_missing_iff_failed_witness :
  Py.assoc "severity" _get_fallback_analysis = None
  <-> exists e,
        parse_body JsonRef.loads JsonRef.repr image_analysis_service
          (PStr scenario_3) = Raise e.
Proof.
  apply (severity_missing_iff_failed JsonRef.loads JsonRef.repr
           image_analysis_service (PStr scenario_3) _get_fallback_analysis []).
  run.
Defined.

(** [is_agricultural] is [null], the confidence 95. *)
Lemma falsy_flag_rejected_witness :
  _parse_llm_analysis JsonRef.loads JsonRef.repr image_analysis_service
    (PStr null_flag_text) []
  = (Ok [ ("plant_type", PStr "Non-Agricultural Object");
          ("pest_detected", PBool false);
          ("disease_detected", PBool false);
          ("health_status", PStr "Not Agricultural");
          ("severity", PStr "None");
          ("recommendations",
           PList [PStr "Please upload a clear photo of a crop, plant, or pest."]);
          ("sources", PList []);
          ("natural_summary", PStr "A tractor.") ],
     []).
Proof.
  apply (falsy_flag_rejected JsonRef.loads JsonRef.repr
           image_analysis_service (PStr null_flag_text)
           [ ("is_agricultural", PNone);
             ("confidence_score", PInt 95);
             ("natural_response", PStr "A tractor.") ] []).
  - run.
  - run.
Defined.

(** The confidence is the string ["85"]. *)
Lemma non_numeric_confidence_falls_back_witness :
  _parse_llm_analysis JsonRef.loads JsonRef.repr image_analysis_service
    (PStr string_confidence_text) []
  = (Ok _get_fallback_analysis, [ErrorJsonParse TypeError]).
Proof.
  apply (non_numeric_confidence_falls_back JsonRef.loads JsonRef.repr
           image_analysis_service (PStr string_confidence_text)
           (items_of string_confidence_text) []).
  - run.
  - run.
  - vm_compute. exact I.
Defined.

(** A confidence of exactly 40 passes the gate. *)
Lemma well_typed_object_accepted_witness :
  exists r,
    accepted JsonRef.loads JsonRef.repr image_analysis_service
      (PStr confidence_forty_text) (PDict (items_of confidence_forty_text)) r
    /\ _parse_llm_analysis JsonRef.loads JsonRef.repr image_analysis_service
         (PStr confidence_forty_text) [] = (Ok r, [])
    /\ Py.assoc "health_status" r = Some (PStr "Healthy").
Proof.
  apply (well_typed_object_accepted JsonRef.loads JsonRef.repr
           image_analysis_service (PStr confidence_forty_text)
           (items_of confidence_forty_text) "Healthy"
           "The rice looks fine." []); run.
Defined.

(** The condition is [null]. *)
Lemma non_string_condition_falls_back_witness :
  _parse_llm_analysis JsonRef.loads JsonRef.repr image_analysis_service
    (PStr null_condition_text) []
  = (Ok _get_fallback_analysis, [ErrorJsonParse AttributeError]).
Proof.
  apply (non_string_condition_falls_back JsonRef.loads JsonRef.repr
           image_analysis_service (PStr null_condition_text)
           (items_of null_condition_text) []).
  - run.
  - run.
  - intros c. vm_compute. discriminate.
Defined.

(** The summary is [null]: a stem borer is named, then an unknown bug. *)
Lemma unsized_summary_fails_iff_len_reached_witness :
  _parse_llm_analysis JsonRef.loads JsonRef.repr image_analysis_service
    (PStr null_summary_text) []
  = (Ok _get_fallback_analysis, [ErrorJsonParse TypeError])
  /\ exists r,
       accepted JsonRef.loads JsonRef.repr image_analysis_service
         (PStr null_summary_no_match_text)
         (PDict (items_of null_summary_no_match_text)) r
       /\ _parse_llm_analysis JsonRef.loads JsonRef.repr
            image_analysis_service (PStr null_summary_no_match_text) []
          = (Ok r, [])
       /\ Py.assoc "natural_summary" r = Some PNone.
Proof.
  split.
  - pose proof (unsized_summary_fails_iff_len_reached JsonRef.loads
                  JsonRef.repr image_analysis_service (PStr null_summary_text)
                  (items_of null_summary_text) "Pest Detected" []) as H.
    destruct H as [H _]; [run | run | run | vm_compute; exact I |].
    apply H. left. split; [run |].
    destruct (first_match (pest_database image_analysis_service)
                (PyStr.upper "Stem Borer")) as [pest|] eqn:P; [| discriminate].
    exists pest. apply wins_first_match. rewrite <- P. run.
  - pose proof (unsized_summary_fails_iff_len_reached JsonRef.loads
                  JsonRef.repr image_analysis_service
                  (PStr null_summary_no_match_text)
                  (items_of null_summary_no_match_text) "Pest Detected" [])
      as H.
    destruct H as [_ H]; [run | run | run | vm_compute; exact I |].
    apply H. intros [[_ [pest W]] | [[D _] | [P _]]].
    + apply wins_first_match in W. vm_compute in W. discriminate.
    + vm_compute in D. discriminate.
    + vm_compute in P. discriminate.
Defined.

(** Both flags are set, only tungro is named, and the summary is a list
    of one string. *)
Lemma list_summary_extended_by_characters_witness :
  exists disease,
    local_name disease = "Tungro"
    /\ Py.assoc "natural_summary" (returned list_summary_both_flags_text)
       = Some (PList ([PStr "Sick rice"]
                      ++ Py.chars (" This resembles " ++ local_name disease
                                   ++ "."))).
Proof.
  destruct (first_match (disease_database image_analysis_service)
              (PyStr.upper "Tungro")) as [disease|] eqn:D; [| discriminate].
  exists disease. split; [now injection D as <- |].
  apply (list_summary_extended_by_characters JsonRef.loads JsonRef.repr
           image_analysis_service (PStr list_summary_both_flags_text)
           (items_of list_summary_both_flags_text)
           (returned list_summary_both_flags_text) true
           [PStr "Sick rice"] disease).
  - accept.
  - run.
  - intros _. apply wins_first_match. run.
  - run.
  - run.
  - simpl. lia.
  - apply wins_first_match. rewrite <- D. run.
Defined.

(** An issue that names the stem borer in mixed case. *)
Lemma record_matches_ignores_case_witness :
  record_matches "stem_borer" stem_borer_sample
    (PyStr.upper "A sTeM bOrEr was seen") = true.
Proof.
  apply (record_matches_ignores_case "stem_borer" stem_borer_sample
           "A sTeM bOrEr was seen"); [run | run |].
  left. apply (StrFacts.in_upper_ci "stem borer"). run.
Defined.

(** Scenario 2 between a greeting and a closing remark. *)
Lemma surrounding_prose_ignored_witness :
  _parse_llm_analysis JsonRef.loads JsonRef.repr image_analysis_service
    (PStr ("Here you go: " ++ "{"
           ++ (member_raw "is_agricultural" "false" ++ ", "
               ++ member "natural_response" "It looks like a car.")
           ++ "}" ++ " Anything else?")) []
  = _parse_llm_analysis JsonRef.loads JsonRef.repr image_analysis_service
      (PStr ("{"
             ++ (member_raw "is_agricultural" "false" ++ ", "
                 ++ member "natural_response" "It looks like a car.")
             ++ "}")) [].
Proof.
  apply (surrounding_prose_ignored JsonRef.loads JsonRef.repr
           image_analysis_service "Here you go: "
           (member_raw "is_agricultural" "false" ++ ", "
            ++ member "natural_response" "It looks like a car.")
           " Anything else?" []).
  - simpl. intuition discriminate.
  - simpl. intuition discriminate.
Defined.

(** Scenario 1: the summary starts with the model's sentence. *)
Lemma flagged_summary_keeps_model_text_witness :
  exists suffix,
    Py.assoc "natural_summary" (returned scenario_1)
    = Some (PStr ("I see rice with stem damage." ++ suffix)).
Proof.
  apply (flagged_summary_keeps_model_text JsonRef.loads JsonRef.repr
           image_analysis_service (PStr scenario_1) (items_of scenario_1)
           (returned scenario_1) true false "I see rice with stem damage.").
  - accept.
  - run.
  - run.
  - reflexivity.
  - run.
Defined.

(** The tables of the service, and scenario 3. *)
Lemma empty_recommendations_iff_failed_witness :
  Py.assoc "recommendations" _get_fallback_analysis = Some (PList [])
  <-> exists e,
        parse_body JsonRef.loads JsonRef.repr image_analysis_service
          (PStr scenario_3) = Raise e.
Proof.
  apply (empty_recommendations_iff_failed JsonRef.loads JsonRef.repr
           image_analysis_service (PStr scenario_3) _get_fallback_analysis []).
  - intros key info H. simpl in H.
    repeat (destruct H as [H | H]; [injection H as _ <-; discriminate |]).
    contradiction.
  - run.
Defined.

(** A model that cannot be reached: the failure of the analysis is logged
    with the exception of the call. *)
Lemma analyze_log_shape_witness :
  analyze_image JsonRef.loads JsonRef.repr unreachable_model
    image_analysis_service [] "leaf.jpg" EmptyString []
  = (Returns _get_fallback_analysis,
     [InfoAnalyzing "leaf.jpg" "llava";
      ErrorAnalysisFailed (OtherException "ConnectionError")]).
Proof.
  apply (proj1 (proj2 (analyze_log_shape JsonRef.loads JsonRef.repr
                         unreachable_model image_analysis_service []
                         "leaf.jpg" EmptyString []))
           (OtherException "ConnectionError")).
  reflexivity.
Defined.

(** A model whose message has no text. *)
Lemma non_string_content_falls_back_witness :
  analyze_image JsonRef.loads JsonRef.repr silent_model
    image_analysis_service [] "leaf.jpg" EmptyString []
  = (Returns _get_fallback_analysis,
     [InfoAnalyzing "leaf.jpg" "llava"; InfoRawResponse PNone;
      ErrorJsonParse TypeError]).
Proof.
  apply (non_string_content_falls_back JsonRef.loads JsonRef.repr
           silent_model image_analysis_service [] "leaf.jpg" EmptyString
           (PDict [("message", PDict [("content", PNone)])]) PNone []).
  - reflexivity.
  - reflexivity.
  - discriminate.
Defined.

(** The confidence is [true]. *)
Lemma boolean_confidence_rejected_witness :
  exists r,
    _parse_llm_analysis JsonRef.loads JsonRef.repr image_analysis_service
      (PStr boolean_confidence_text) [] = (Ok r, [])
    /\ Py.assoc "plant_type" r = Some (PStr "Non-Agricultural Object")
    /\ Py.assoc "health_status" r = Some (PStr "Not Agricultural").
Proof.
  apply (boolean_confidence_rejected JsonRef.loads JsonRef.repr
           image_analysis_service (PStr boolean_confidence_text)
           (items_of boolean_confidence_text) true []); run.
Defined.

(** Scenario 2 is rejected: its result binds no info key. *)
Lemma info_keys_iff_accepted_witness :
  Py.assoc "pest_info" (returned scenario_2) = None
  /\ Py.assoc "disease_info" (returned scenario_2) = None.
Proof.
  apply (info_keys_iff_accepted JsonRef.loads JsonRef.repr
           image_analysis_service (PStr scenario_2) (returned scenario_2) []).
  - run.
  - intros data [E [G _]]. vm_compute in E. injection E as <-.
    vm_compute in G. discriminate.
Defined.

End EdgeCases.
